(** * The IBKR paper-trading HTTP service, embedded in Rocq

    The repository holds two near-duplicate Flask applications over the
    [ib_insync] client:

    - [src/api/index.py], the long-lived variant: one [IB()] client is
      created with the trader object and reused by every request
      (module [ApiIndex]);
    - [src/app.py], the per-request variant: every [connect()] creates a
      fresh [IB()] client, and the operation that obtained it disconnects
      it in a [finally] block (module [App]).

    Python code is embedded as functions in a state and exception monad:
    the state is the trader object ([self]) and the client library, a
    result is a value or a raised exception ([outcome]), and [try],
    [except] and [finally] are combinators.  Result dicts and JSON objects
    are finite maps from strings ([gmap string json]).

    The brokerage gateway is outside the repository.  It is modelled as a
    [world]: what the gateway answers to the call made at each instant,
    and the instants at which a live session is silently lost.  Every
    theorem quantifies over all worlds.  Every call on the client library
    is logged with its answer in a [trace], so that "no gateway call is
    made" or "placeOrder is never reached" are statements about the trace.

    The interpreter and the web framework are outside the repository too.
    The model computes what they do where that is plain, and takes the
    rest from the [world]:

    - a string is the sequence of the bytes of its UTF-8 encoding;
      [str.upper] and [int] are computed on ASCII text ([int] on ASCII
      text of at most 4300 characters, with the message of its
      [ValueError]), and are the world's on any other text;
    - the URL map matches a path that starts with a slash and has no
      doubled slash against the rules of the application, by equality;
      what the framework does with any other path is the world's;
    - a view function that raises is answered with a 500 by the framework.

    What the model takes from the client library, not from the repository:

    - [connectAsync] either completes, and the client then holds a live
      session, or raises, and the client then holds none (the library
      closes the socket before it re-raises);
    - [isConnected] reads the state of the client and does not raise;
      [disconnect] closes the session and does not raise when it is called
      by the coroutine that opened the session, as the per-request variant
      does; called by a later coroutine, as the [disconnect] method of the
      long-lived variant is, it may raise, as the world decides (the event
      loop of the coroutine that connected is closed by then); [IB()],
      [Stock], [MarketOrder] and [asyncio.sleep] do not raise;
    - [managedAccounts], [qualifyContractsAsync] and [placeOrder] answer
      or raise as the world decides, whether or not the session is live.

    Exceptions are instances of [Exception].  Logging and CORS are not
    modelled; the reading of the clock in [/health], which may raise, is a
    parameter.  The URL map holds the rules of the application for the
    methods GET and POST, and the test script of [src/test_api.py] calls
    it directly (module [TestApi]). *)

From Stdlib Require Import ZArith Ascii String Lia.
From stdpp Require Import base tactics option list strings gmap.

#[local] Open Scope Z_scope.

(** ** Python values *)

(** An exception object: its class name and the text [str(e)] yields. *)
Record exn := Exception { exn_class : string; exn_msg : string }.

Definition str_exn (e : exn) : string := exn_msg e.

(** The result of evaluating a Python expression: a value, or a raised
    exception. *)
Inductive outcome (A : Type) : Type :=
| Ret (a : A)
| Raise (e : exn).
Arguments Ret {A} a.
Arguments Raise {A} e.

(** A Python float, as far as [int()] can tell floats apart: a finite
    double is the dyadic rational [m * 2^e]. *)
Inductive pyfloat :=
| FFinite (m e : Z)
| FInf (negative : bool)
| FNaN.

(** The values [request.get_json()] can return and [jsonify] can send. *)
#[warnings="-register-all"] Inductive json :=
| JNull
| JBool (b : bool)
| JInt (n : Z)
| JFloat (f : pyfloat)
| JStr (s : string)
| JArr (l : list json)
| JObj (o : gmap string json).

(** A dict with string keys, such as the result dicts of the trader. *)
Abbreviation pydict := (gmap string json).

(** [type(v).__name__] *)
Definition type_name (v : json) : string :=
  match v with
  | JNull => "NoneType"
  | JBool _ => "bool"
  | JInt _ => "int"
  | JFloat _ => "float"
  | JStr _ => "str"
  | JArr _ => "list"
  | JObj _ => "dict"
  end.

(** *** Strings

    A string is the sequence of the bytes of its UTF-8 encoding.  The
    functions of this section are those of the interpreter on ASCII
    text. *)

Fixpoint is_ascii (s : string) : bool :=
  match s with
  | EmptyString => true
  | String c s' => (nat_of_ascii c <? 128)%nat && is_ascii s'
  end.

Definition upper_ascii (c : ascii) : ascii :=
  let n := nat_of_ascii c in
  if ((97 <=? n) && (n <=? 122))%nat then ascii_of_nat (n - 32) else c.

(** [s.upper()] for ASCII text: the letters a to z change. *)
Fixpoint upper (s : string) : string :=
  match s with
  | EmptyString => EmptyString
  | String c s' => String (upper_ascii c) (upper s')
  end.

Fixpoint is_prefix (p s : string) : bool :=
  match p, s with
  | EmptyString, _ => true
  | String a p', String b s' => if decide (a = b) then is_prefix p' s' else false
  | String _ _, EmptyString => false
  end.

(** [p in s] for two strings: [p] occurs in [s] as a substring. *)
Fixpoint is_substring (p s : string) : bool :=
  is_prefix p s ||
  match s with
  | EmptyString => false
  | String _ s' => is_substring p s'
  end.

(** Whitespace that [int()] skips around a literal in ASCII text: the
    space and the characters 9 to 13. *)
Definition is_space (c : ascii) : bool :=
  let n := nat_of_ascii c in
  ((n =? 32) || ((9 <=? n) && (n <=? 13)))%nat.

Fixpoint lstrip (s : string) : string :=
  match s with
  | String c s' => if is_space c then lstrip s' else s
  | EmptyString => EmptyString
  end.

Definition strip (s : string) : string :=
  String.rev (lstrip (String.rev (lstrip s))).

Definition digit_val (c : ascii) : option Z :=
  let n := nat_of_ascii c in
  if ((48 <=? n) && (n <=? 57))%nat then Some (Z.of_nat n - 48) else None.

(** The digits of a decimal literal after the first one; a single
    underscore may separate two digits. *)
Fixpoint int_digits (s : string) (acc : Z) (after_underscore : bool) : option Z :=
  match s with
  | EmptyString => if after_underscore then None else Some acc
  | String c s' =>
      match digit_val c with
      | Some d => int_digits s' (10 * acc + d) false
      | None =>
          if decide (c = "_"%char)
          then (if after_underscore then None else int_digits s' acc true)
          else None
      end
  end.

Definition int_magnitude (s : string) : option Z :=
  match s with
  | String c s' =>
      match digit_val c with
      | Some d => int_digits s' d false
      | None => None
      end
  | EmptyString => None
  end.

(** The value of a base-10 integer literal in ASCII text, as [int(s)]
    reads it. *)
Definition int_of_str (s : string) : option Z :=
  match strip s with
  | String "-" s' => Z.opp <$> int_magnitude s'
  | String "+" s' => int_magnitude s'
  | s' => int_magnitude s'
  end.

Definition backslash : ascii := ascii_of_nat 92.

Definition double_quote : ascii := ascii_of_nat 34.

Definition hex_digit (n : nat) : ascii :=
  ascii_of_nat (if (n <? 10)%nat then 48 + n else 87 + n).

Fixpoint has_char (c : ascii) (s : string) : bool :=
  match s with
  | EmptyString => false
  | String c' s' => bool_decide (c' = c) || has_char c s'
  end.

(** One character of [repr(s)] between the quotes [q]: the quote and the
    backslash are escaped, tab, newline and return are written with
    their letter, and any other control character in hexadecimal. *)
Definition repr_char (q c : ascii) : string :=
  let n := nat_of_ascii c in
  if bool_decide (c = q) || bool_decide (c = backslash)
  then String backslash (String c EmptyString)
  else if (n =? 9)%nat then String backslash "t"
  else if (n =? 10)%nat then String backslash "n"
  else if (n =? 13)%nat then String backslash "r"
  else if ((n <? 32) || (n =? 127))%nat
  then String backslash
         (String "x" (String (hex_digit (n / 16)%nat)
                        (String (hex_digit (n mod 16)%nat) EmptyString)))
  else String c EmptyString.

Fixpoint repr_chars (q : ascii) (s : string) : string :=
  match s with
  | EmptyString => EmptyString
  | String c s' => repr_char q c +:+ repr_chars q s'
  end.

(** [repr(s)] for ASCII text: between single quotes, or between double
    quotes when the text has a single quote and no double quote. *)
Definition py_repr (s : string) : string :=
  let q := if has_char "'" s && negb (has_char double_quote s)
           then double_quote else "'"%char in
  String q (repr_chars q s) +:+ String q EmptyString.

(** What [int(s)] raises on ASCII text that is no literal: the message
    shows the first 200 characters of [repr(s)]. *)
Definition invalid_literal (s : string) : exn :=
  Exception "ValueError"
    ("invalid literal for int() with base 10: " +:+ String.substring 0 200 (py_repr s)).

(** *** The operations the routes apply to the request body *)

Definition TypeError (msg : string) : exn := Exception "TypeError" msg.
Definition ValueError (msg : string) : exn := Exception "ValueError" msg.
Definition AttributeError (msg : string) : exn := Exception "AttributeError" msg.
Definition OverflowError (msg : string) : exn := Exception "OverflowError" msg.

Definition is_str (k : string) (v : json) : bool :=
  match v with
  | JStr s => bool_decide (s = k)
  | _ => false
  end.

(** [k in data]: key membership for a dict, element membership for a
    list, substring test for a string; other values are not iterable. *)
Definition py_in (k : string) (data : json) : outcome bool :=
  match data with
  | JObj o => Ret (bool_decide (is_Some (o !! k)))
  | JArr l => Ret (existsb (is_str k) l)
  | JStr s => Ret (is_substring k s)
  | v => Raise (TypeError ("argument of type '" +:+ type_name v +:+ "' is not iterable"))
  end.

(** [data[k]] for a string [k]. *)
Definition py_getitem (data : json) (k : string) : outcome json :=
  match data with
  | JObj o =>
      match o !! k with
      | Some v => Ret v
      | None => Raise (Exception "KeyError" ("'" +:+ k +:+ "'"))
      end
  | JArr _ => Raise (TypeError "list indices must be integers or slices, not str")
  | JStr _ => Raise (TypeError "string indices must be integers, not 'str'")
  | v => Raise (TypeError ("'" +:+ type_name v +:+ "' object is not subscriptable"))
  end.

(** [int(f)] for a float: truncation towards zero. *)
Definition int_of_float (f : pyfloat) : outcome Z :=
  match f with
  | FFinite m e =>
      Ret (if 0 <=? e then m * 2 ^ e else Z.quot m (2 ^ (- e)))
  | FInf _ => Raise (OverflowError "cannot convert float infinity to integer")
  | FNaN => Raise (ValueError "cannot convert float NaN to integer")
  end.

(** ** The gateway client *)

(** An [IB()] client object, identified by the order of its creation. *)
Abbreviation handle := nat (only parsing).

Record contract := Contract {
  secType : string;
  conId : Z;
  c_symbol : string;
  exchange : string;
  currency : string
}.

(** [Stock(symbol, exchange, currency)]: an unqualified stock contract. *)
Definition Stock (sym ex cur : string) : contract :=
  {| secType := "STK"; conId := 0; c_symbol := sym; exchange := ex; currency := cur |}.

Record order := Order {
  orderType : string;
  o_action : string;
  totalQuantity : Z
}.

(** [MarketOrder(action, totalQuantity)] *)
Definition MarketOrder (act : string) (quantity : Z) : order :=
  {| orderType := "MKT"; o_action := act; totalQuantity := quantity |}.

(** What the routes read from the [Trade] that [placeOrder] returns:
    [trade.order.orderId] and, after the settling delay,
    [trade.orderStatus.status]. *)
Record trade := Trade {
  orderId : Z;
  orderStatus_status : string
}.

(** The methods the callers of the service use. *)
Inductive http_method := GET | POST.

(** What the web framework does with a path before any view function
    runs: it matches the path against the rules as another path, or
    answers with a redirect, or finds no rule. *)
Inductive routing :=
| Dispatch (path : string)
| Redirected (location : string)
| Unmatched.

(** What lies outside the repository.

    The behaviour of the gateway is indexed by the instant of the call
    (the number of calls made before it).  [w_drop t] says that the
    session of the client used at instant [t] is lost just before that
    call is served; [w_connectAsync] answers [None] when the handshake
    completes and [Some e] when it raises [e]; [w_disconnect] answers
    [None] when a [disconnect] called by a later coroutine than the one
    that connected completes, and [Some (e, live)] when it raises [e] and
    leaves the session live or not.

    [w_upper] and [w_int] are [str.upper] and [int] of the interpreter on
    the text the model does not read itself, and [w_routing] is what the
    framework does with a path that is not in canonical form. *)
Record world := World {
  w_drop : nat → bool;
  w_connectAsync : nat → string → Z → Z → option exn;
  w_managedAccounts : nat → outcome (list string);
  w_qualifyContractsAsync : nat → contract → outcome (list contract);
  w_placeOrder : nat → contract → order → outcome trade;
  w_disconnect : nat → option (exn * bool);
  w_upper : string → string;
  w_int : string → outcome Z;
  w_routing : http_method → string → routing
}.

(** [s.upper()] *)
Definition str_upper (w : world) (s : string) : string :=
  if is_ascii s then upper s else w_upper w s.

(** [int(s)] for a string. *)
Definition int_str (w : world) (s : string) : outcome Z :=
  if is_ascii s && (Z.of_nat (String.length s) <=? 4300)
  then match int_of_str s with
       | Some n => Ret n
       | None => Raise (invalid_literal s)
       end
  else w_int w s.

(** [v.upper()]: only strings have the method. *)
Definition py_upper (w : world) (v : json) : outcome string :=
  match v with
  | JStr s => Ret (str_upper w s)
  | v => Raise (AttributeError ("'" +:+ type_name v +:+ "' object has no attribute 'upper'"))
  end.

(** [int(v)] *)
Definition py_int (w : world) (v : json) : outcome Z :=
  match v with
  | JInt n => Ret n
  | JBool b => Ret (if b then 1 else 0)
  | JFloat f => int_of_float f
  | JStr s => int_str w s
  | v => Raise (TypeError ("int() argument must be a string, a bytes-like object or a real number, not '"
                           +:+ type_name v +:+ "'"))
  end.

(** A call on the client library, with its arguments and its answer. *)
Inductive event :=
| EvIB (h : handle)
| EvConnectAsync (h : handle) (host : string) (port clientId : Z) (r : option exn)
| EvIsConnected (h : handle) (b : bool)
| EvManagedAccounts (h : handle) (r : outcome (list string))
| EvQualifyContractsAsync (h : handle) (c : contract) (r : outcome (list contract))
| EvPlaceOrder (h : handle) (c : contract) (o : order) (r : outcome trade)
| EvSleep
| EvDisconnect (h : handle).

(** The state of the client library: for each client object whether it
    holds a live session, the current instant, and the calls so far. *)
Record gateway := Gateway {
  sessions : list bool;
  clock : nat;
  trace : list event
}.

Definition is_live (h : handle) (g : gateway) : bool :=
  default false (sessions g !! h).

(** The module-level settings read from the environment. *)
Record config := Config {
  IB_HOST : string;
  IB_PORT : Z;
  CLIENT_ID : Z
}.

(** ** Stateful code: a state and exception monad

    [T] is the type of the trader object ([self]). *)

Record st (T : Type) := St { self : T; gw : gateway }.
Arguments St {T} self gw.
Arguments self {T} s.
Arguments gw {T} s.

Definition M (T A : Type) : Type := st T → outcome A * st T.

#[global] Instance M_ret T : MRet (M T) := λ A a s, (Ret a, s).

#[global] Instance M_bind T : MBind (M T) := λ A B k m s,
  match m s with
  | (Ret a, s') => k a s'
  | (Raise e, s') => (Raise e, s')
  end.

(** An expression that touches no state. *)
Definition pure {T A} (r : outcome A) : M T A := λ s, (r, s).

(** A call on the client library. *)
Definition call {T A} (f : gateway → outcome A * gateway) : M T A :=
  λ s, let '(r, g) := f (gw s) in (r, St (self s) g).

(** [try: body / except Exception as e: handler e] *)
Definition try_except {T A} (body : M T A) (handler : exn → M T A) : M T A :=
  λ s, match body s with
       | (Ret a, s') => (Ret a, s')
       | (Raise e, s') => handler e s'
       end.

(** [try: body / finally: final]: [final] runs on every exit of [body];
    an exception raised by [final] replaces the result. *)
Definition try_finally {T A} (body : M T A) (final : M T unit) : M T A :=
  λ s, let '(r, s') := body s in
       match final s' with
       | (Ret _, s'') => (r, s'')
       | (Raise e, s'') => (Raise e, s'')
       end.

Section Client.
Context (w : world).

(** The world moves before the call on client [h] is served. *)
Definition arrive (h : handle) (g : gateway) : list bool :=
  if w_drop w (clock g) then <[h := false]> (sessions g) else sessions g.

(** [IB()]: a new client object, without a session. *)
Definition IB (g : gateway) : outcome handle * gateway :=
  let h := length (sessions g) in
  (Ret h, {| sessions := sessions g ++ [false]; clock := clock g;
             trace := trace g ++ [EvIB h] |}).

(** [await ib.connectAsync(host, port, clientId=clientId)]: when the
    handshake completes the client holds a live session; when it
    raises, the library has closed the socket before re-raising. *)
Definition connectAsync (h : handle) (host : string) (port clientId : Z)
    (g : gateway) : outcome unit * gateway :=
  let r := w_connectAsync w (clock g) host port clientId in
  let g' b := {| sessions := <[h := b]> (arrive h g); clock := S (clock g);
                 trace := trace g ++ [EvConnectAsync h host port clientId r] |} in
  match r with
  | None => (Ret tt, g' true)
  | Some e => (Raise e, g' false)
  end.

(** [ib.isConnected()] *)
Definition isConnected (h : handle) (g : gateway) : outcome bool * gateway :=
  let ss := arrive h g in
  let b := default false (ss !! h) in
  (Ret b, {| sessions := ss; clock := S (clock g);
             trace := trace g ++ [EvIsConnected h b] |}).

(** [ib.managedAccounts()] *)
Definition managedAccounts (h : handle) (g : gateway) : outcome (list string) * gateway :=
  let r := w_managedAccounts w (clock g) in
  (r, {| sessions := arrive h g; clock := S (clock g);
         trace := trace g ++ [EvManagedAccounts h r] |}).

(** [await ib.qualifyContractsAsync(contract)] *)
Definition qualifyContractsAsync (h : handle) (c : contract)
    (g : gateway) : outcome (list contract) * gateway :=
  let r := w_qualifyContractsAsync w (clock g) c in
  (r, {| sessions := arrive h g; clock := S (clock g);
         trace := trace g ++ [EvQualifyContractsAsync h c r] |}).

(** [ib.placeOrder(contract, order)] *)
Definition placeOrder (h : handle) (c : contract) (o : order)
    (g : gateway) : outcome trade * gateway :=
  let r := w_placeOrder w (clock g) c o in
  (r, {| sessions := arrive h g; clock := S (clock g);
         trace := trace g ++ [EvPlaceOrder h c o r] |}).

(** [await asyncio.sleep(0.1)]: the settling delay. *)
Definition sleep (g : gateway) : outcome unit * gateway :=
  (Ret tt, {| sessions := sessions g; clock := clock g;
              trace := trace g ++ [EvSleep] |}).

(** [ib.disconnect()] in the coroutine that opened the session: the
    session of the client, if any, is closed. *)
Definition ib_disconnect (h : handle) (g : gateway) : outcome unit * gateway :=
  (Ret tt, {| sessions := <[h := false]> (sessions g); clock := S (clock g);
              trace := trace g ++ [EvDisconnect h] |}).

(** [ib.disconnect()] in a coroutine that did not open the session.  A
    client without a session returns at once.  Otherwise the event loop
    under which the client connected may be closed by now ([asyncio.run]
    closes its loop when the coroutine returns), and closing the
    transport may raise: the world decides. *)
Definition ib_disconnect_later (h : handle) (g : gateway) : outcome unit * gateway :=
  match default false (sessions g !! h), w_disconnect w (clock g) with
  | true, Some (e, live) =>
      (Raise e, {| sessions := <[h := live]> (sessions g); clock := S (clock g);
                   trace := trace g ++ [EvDisconnect h] |})
  | _, _ => ib_disconnect h g
  end.
End Client.

(** An HTTP response: the JSON body and the status code. *)
Definition response : Type := pydict * Z.

(** [jsonify(body)], with the default status. *)
Definition jsonify (body : pydict) : response := (body, 200).

(** An incoming POST request, as far as the routes look at it: what
    [request.get_json()] evaluates to.  It raises when the body is absent
    or is not JSON. *)
Record http_request := Request { get_json : outcome json }.

Definition error_body (msg : string) : pydict := {[ "error" := JStr msg ]}.

(** *** The process environment and the URL map *)

(** [os.environ], after [load_dotenv()]. *)
Abbreviation environment := (gmap string string).

(** [os.getenv(name, default)]: the text of the variable when it is set. *)
Definition getenv (environ : environment) (name : string) (default : json) : json :=
  match environ !! name with
  | Some text => JStr text
  | None => default
  end.

(** The truth value of a string or [None], as [if] reads it. *)
Definition truthy (v : json) : bool :=
  match v with
  | JStr s => negb (bool_decide (s = ""))
  | _ => false
  end.

(** What the application answers: the response of a view function, or
    the framework's own answer, which has no JSON body: for a URL without
    a rule (404), for a rule without the method (405), for a path it
    redirects (308), and for a view function that raised (500). *)
Inductive reply :=
| Json (r : response)
| NotFound
| MethodNotAllowed
| Redirect (location : string)
| InternalServerError.

Definition status_code (r : reply) : Z :=
  match r with
  | Json (_, status) => status
  | NotFound => 404
  | MethodNotAllowed => 405
  | Redirect _ => 308
  | InternalServerError => 500
  end.

(** [@app.route(rule, methods=[method])] on a view function. *)
Definition route {T} (allowed method : http_method) (view : M T response) : M T reply :=
  match allowed, method with
  | GET, GET | POST, POST =>
      λ s, let '(r, s') := view s in
           (Ret (match r with Ret x => Json x | Raise _ => InternalServerError end), s')
  | _, _ => λ s, (Ret MethodNotAllowed, s)
  end.

(** A path in canonical form: it starts with a slash and has no doubled
    slash. *)
Definition canonical (path : string) : bool :=
  is_prefix "/" path && negb (is_substring "//" path).

(** The framework in front of the rules of an application: a canonical
    path is matched as it is. *)
Definition dispatch {T} (w : world) (rules : http_method → string → M T reply)
    (method : http_method) (path : string) : M T reply :=
  match (if canonical path then Dispatch path else w_routing w method path) with
  | Dispatch path' => rules method path'
  | Redirected location => mret (Redirect location)
  | Unmatched => mret NotFound
  end.

(** ** [src/api/index.py]: the long-lived variant *)

Module ApiIndex.

(** The trader object: [self.ib] and the cached flag [self.connected]. *)
Record IBKRTrader := Trader { ib : handle; connected : bool }.

(** [IBKRTrader()]: [self.ib = IB()], [self.connected = False]. *)
Definition init (g : gateway) : st IBKRTrader :=
  St (Trader (length (sessions g)) false) (snd (IB g)).

Definition get_ib : M IBKRTrader handle := λ s, (Ret (ib (self s)), s).

Definition get_connected : M IBKRTrader bool := λ s, (Ret (connected (self s)), s).

(** [self.connected = b] *)
Definition set_connected (b : bool) : M IBKRTrader unit :=
  λ s, (Ret tt, St (Trader (ib (self s)) b) (gw s)).

Section Service.
Context (cfg : config) (w : world).

Definition connect : M IBKRTrader bool :=
  try_except
    (h ← get_ib;
     live ← call (isConnected w h);
     if live : bool then
       set_connected true;;
       mret true
     else
       call (connectAsync w h (IB_HOST cfg) (IB_PORT cfg) (CLIENT_ID cfg));;
       live' ← call (isConnected w h);
       if live' : bool then
         set_connected true;;
         mret true
       else
         set_connected false;;
         mret false)
    (λ e,
       set_connected false;;
       mret false).

Definition test_connection : M IBKRTrader pydict :=
  try_except
    (h ← get_ib;
     flag ← get_connected;
     (if negb flag then
        call (connectAsync w h (IB_HOST cfg) (IB_PORT cfg) (CLIENT_ID cfg));;
        set_connected true
      else mret tt);;
     accounts ← call (managedAccounts w h);
     mret (<["success" := JBool true]>
           (<["connected" := JBool true]>
           (<["accounts" := JArr (JStr <$> accounts)]>
           (<["host" := JStr (IB_HOST cfg)]>
           (<["port" := JInt (IB_PORT cfg)]>
           (<["client_id" := JInt (CLIENT_ID cfg)]> ∅)))))))
    (λ e,
       set_connected false;;
       mret (<["success" := JBool false]> ∅)).

Definition disconnect : M IBKRTrader unit :=
  h ← get_ib;
  flag ← get_connected;
  if flag : bool then
    call (ib_disconnect_later w h);;
    set_connected false
  else mret tt.

Definition place_market_order (symbol action : string) (quantity : Z)
    : M IBKRTrader pydict :=
  try_except
    (h ← get_ib;
     live ← call (isConnected w h);
     failed ← (if negb live then
                 set_connected false;;
                 ok ← connect;
                 mret (negb ok)
               else mret false);
     if failed : bool then mret (error_body "Failed to connect to IBKR")
     else
       live' ← call (isConnected w h);
       if negb live' then mret (error_body "No active connection to IBKR")
       else
         let contract := Stock symbol "SMART" "USD" in
         qualified_contracts ← call (qualifyContractsAsync w h contract);
         match qualified_contracts with
         | [] => mret (error_body ("Could not qualify contract for symbol " +:+ symbol))
         | contract :: _ =>
             let order := MarketOrder (str_upper w action) quantity in
             trade ← call (placeOrder w h contract order);
             call sleep;;
             mret (<["success" := JBool true]>
                   (<["order_id" := JInt (orderId trade)]>
                   (<["symbol" := JStr symbol]>
                   (<["action" := JStr action]>
                   (<["quantity" := JInt quantity]>
                   (<["order_type" := JStr "MARKET"]>
                   (<["status" := JStr (orderStatus_status trade)]> ∅)))))))
         end)
    (λ e,
       set_connected false;;
       mret (error_body (str_exn e))).

(** [GET /test-connection] *)
Definition test_connection_route : M IBKRTrader response :=
  try_except
    (result ← test_connection;
     mret (jsonify result))
    (λ e, mret (error_body (str_exn e), 500)).

(** [POST /buy] *)
Definition buy_stock (request : http_request) : M IBKRTrader response :=
  try_except
    (data ← pure (get_json request);
     has_symbol ← pure (py_in "symbol" data);
     missing ← (if negb has_symbol then mret true
                else has_quantity ← pure (py_in "quantity" data);
                     mret (negb has_quantity));
     if missing : bool then
       mret (error_body "Missing required fields: symbol and quantity", 400)
     else
       v ← pure (py_getitem data "symbol");
       symbol ← pure (py_upper w v);
       v' ← pure (py_getitem data "quantity");
       quantity ← pure (py_int w v');
       result ← place_market_order symbol "BUY" quantity;
       if bool_decide (is_Some (result !! "error")) then mret (result, 500)
       else mret (jsonify result))
    (λ e, mret (error_body (str_exn e), 500)).

(** [POST /sell] *)
Definition sell_stock (request : http_request) : M IBKRTrader response :=
  try_except
    (data ← pure (get_json request);
     has_symbol ← pure (py_in "symbol" data);
     missing ← (if negb has_symbol then mret true
                else has_quantity ← pure (py_in "quantity" data);
                     mret (negb has_quantity));
     if missing : bool then
       mret (error_body "Missing required fields: symbol and quantity", 400)
     else
       v ← pure (py_getitem data "symbol");
       symbol ← pure (py_upper w v);
       v' ← pure (py_getitem data "quantity");
       quantity ← pure (py_int w v');
       result ← place_market_order symbol "SELL" quantity;
       if bool_decide (is_Some (result !! "error")) then mret (result, 500)
       else mret (jsonify result))
    (λ e, mret (error_body (str_exn e), 500)).

(** [GET /] *)
Definition home : M IBKRTrader response :=
  mret (jsonify
    (<["message" := JStr "Simple IBKR Paper Trading API"]>
    (<["endpoints" := JObj
         (<["/buy" := JStr "POST - Place market buy order"]>
         (<["/sell" := JStr "POST - Place market sell order"]>
         (<["/status" := JStr "GET - Check connection status"]>
         (<["/test-connection" := JStr "GET - Test connection with detailed info"]> ∅))))]> ∅))).

(** [GET /status]: reports the cached flag. *)
Definition status : M IBKRTrader response :=
  flag ← get_connected;
  mret (jsonify
    (<["status" := JStr "online"]>
    (<["connected_to_ibkr" := JBool flag]>
    (<["trading_mode" := JStr "paper"]>
    (<["config" := JObj
         (<["host" := JStr (IB_HOST cfg)]>
         (<["port" := JInt (IB_PORT cfg)]>
         (<["client_id" := JInt (CLIENT_ID cfg)]> ∅)))]> ∅))))).

(** The rules of the application. *)
Definition url_map (request : http_request) (method : http_method) (path : string)
    : M IBKRTrader reply :=
  if decide (path = "/") then route GET method home
  else if decide (path = "/status") then route GET method status
  else if decide (path = "/test-connection") then route GET method test_connection_route
  else if decide (path = "/buy") then route POST method (buy_stock request)
  else if decide (path = "/sell") then route POST method (sell_stock request)
  else mret NotFound.

(** The application, as the framework serves it. *)
Definition serve (method : http_method) (path : string) (request : http_request)
    : M IBKRTrader reply :=
  dispatch w (url_map request) method path.

End Service.
End ApiIndex.

(** ** [src/app.py]: the per-request variant *)

(** A function body with local variables of type [L] beside [self]. *)
Definition frame {T L A} (locals : L) (body : M (T * L) A) : M T A :=
  λ s, let '(r, s') := body (St (self s, locals) (gw s)) in
       (r, St (fst (self s')) (gw s')).

(** A method of [self] called from a body that has locals. *)
Definition method {T L A} (m : M T A) : M (T * L) A :=
  λ s, let '(r, s') := m (St (fst (self s)) (gw s)) in
       (r, St (self s', snd (self s)) (gw s')).

Definition get_local {T L} : M (T * L) L := λ s, (Ret (snd (self s)), s).

Definition set_local {T L} (v : L) : M (T * L) unit :=
  λ s, (Ret tt, St (fst (self s), v) (gw s)).

Module App.

(** The trader object: only the cached flag [self.connected]. *)
Record IBKRTrader := Trader { connected : bool }.

(** [IBKRTrader()]: [self.connected = False]. *)
Definition init (g : gateway) : st IBKRTrader := St (Trader false) g.

(** [self.connected = b] *)
Definition set_connected (b : bool) : M IBKRTrader unit :=
  λ s, (Ret tt, St (Trader b) (gw s)).

Section Service.
Context (cfg : config) (w : world).

(** Returns the new client, or [None]. *)
Definition connect : M IBKRTrader (option handle) :=
  try_except
    (h ← call IB;
     call (connectAsync w h (IB_HOST cfg) (IB_PORT cfg) (CLIENT_ID cfg));;
     live ← call (isConnected w h);
     if live : bool then
       set_connected true;;
       mret (Some h)
     else
       set_connected false;;
       mret None)
    (λ e,
       set_connected false;;
       mret None).

(** The [finally] block of both operations:
    [if ib and ib.isConnected(): ib.disconnect()]. *)
Definition release : M (IBKRTrader * option handle) unit :=
  ib ← get_local;
  match ib with
  | Some h =>
      live ← call (isConnected w h);
      if live : bool then call (ib_disconnect h) else mret tt
  | None => mret tt
  end.

Definition test_connection : M IBKRTrader pydict :=
  frame None
    (try_finally
       (try_except
          (r ← method connect;
           set_local r;;
           ib ← get_local;
           match ib with
           | None =>
               mret (<["success" := JBool false]>
                     (<["error" := JStr "Failed to establish connection"]>
                     (<["host" := JStr (IB_HOST cfg)]>
                     (<["port" := JInt (IB_PORT cfg)]>
                     (<["client_id" := JInt (CLIENT_ID cfg)]> ∅)))))
           | Some h =>
               accounts ← call (managedAccounts w h);
               mret (<["success" := JBool true]>
                     (<["connected" := JBool true]>
                     (<["accounts" := JArr (JStr <$> accounts)]>
                     (<["host" := JStr (IB_HOST cfg)]>
                     (<["port" := JInt (IB_PORT cfg)]>
                     (<["client_id" := JInt (CLIENT_ID cfg)]> ∅))))))
           end)
          (λ e,
             method (set_connected false);;
             mret (<["success" := JBool false]>
                   (<["error" := JStr (str_exn e)]>
                   (<["host" := JStr (IB_HOST cfg)]>
                   (<["port" := JInt (IB_PORT cfg)]>
                   (<["client_id" := JInt (CLIENT_ID cfg)]> ∅)))))))
       release).

(** "Not needed in serverless environment": only the flag is cleared. *)
Definition disconnect : M IBKRTrader unit := set_connected false.

Definition place_market_order (symbol action : string) (quantity : Z)
    : M IBKRTrader pydict :=
  frame None
    (try_finally
       (try_except
          (r ← method connect;
           set_local r;;
           ib ← get_local;
           match ib with
           | None => mret (error_body "Failed to connect to IBKR")
           | Some h =>
               let contract := Stock symbol "SMART" "USD" in
               qualified_contracts ← call (qualifyContractsAsync w h contract);
               match qualified_contracts with
               | [] => mret (error_body ("Could not qualify contract for symbol " +:+ symbol))
               | contract :: _ =>
                   let order := MarketOrder (str_upper w action) quantity in
                   trade ← call (placeOrder w h contract order);
                   call sleep;;
                   mret (<["success" := JBool true]>
                         (<["order_id" := JInt (orderId trade)]>
                         (<["symbol" := JStr symbol]>
                         (<["action" := JStr action]>
                         (<["quantity" := JInt quantity]>
                         (<["order_type" := JStr "MARKET"]>
                         (<["status" := JStr (orderStatus_status trade)]> ∅)))))))
               end
           end)
          (λ e,
             method (set_connected false);;
             mret (error_body (str_exn e))))
       release).

(** [GET /test-connection] *)
Definition test_connection_route : M IBKRTrader response :=
  try_except
    (result ← test_connection;
     mret (jsonify result))
    (λ e, mret (error_body (str_exn e), 500)).

(** [POST /buy] *)
Definition buy_stock (request : http_request) : M IBKRTrader response :=
  try_except
    (data ← pure (get_json request);
     has_symbol ← pure (py_in "symbol" data);
     missing ← (if negb has_symbol then mret true
                else has_quantity ← pure (py_in "quantity" data);
                     mret (negb has_quantity));
     if missing : bool then
       mret (error_body "Missing required fields: symbol and quantity", 400)
     else
       v ← pure (py_getitem data "symbol");
       symbol ← pure (py_upper w v);
       v' ← pure (py_getitem data "quantity");
       quantity ← pure (py_int w v');
       result ← place_market_order symbol "BUY" quantity;
       if bool_decide (is_Some (result !! "error")) then mret (result, 500)
       else mret (jsonify result))
    (λ e, mret (error_body (str_exn e), 500)).

(** [POST /sell] *)
Definition sell_stock (request : http_request) : M IBKRTrader response :=
  try_except
    (data ← pure (get_json request);
     has_symbol ← pure (py_in "symbol" data);
     missing ← (if negb has_symbol then mret true
                else has_quantity ← pure (py_in "quantity" data);
                     mret (negb has_quantity));
     if missing : bool then
       mret (error_body "Missing required fields: symbol and quantity", 400)
     else
       v ← pure (py_getitem data "symbol");
       symbol ← pure (py_upper w v);
       v' ← pure (py_getitem data "quantity");
       quantity ← pure (py_int w v');
       result ← place_market_order symbol "SELL" quantity;
       if bool_decide (is_Some (result !! "error")) then mret (result, 500)
       else mret (jsonify result))
    (λ e, mret (error_body (str_exn e), 500)).

Context (environ : environment) (loop_time : outcome string).

(** ["vercel" if os.getenv('VERCEL') else "local"], with its first word. *)
Definition deployment (hosted : string) : string :=
  if truthy (getenv environ "VERCEL" JNull) then hosted else "local".

(** [GET /] *)
Definition home : M IBKRTrader response :=
  mret (jsonify
    (<["message" := JStr "Simple IBKR Paper Trading API"]>
    (<["version" := JStr "1.0.0"]>
    (<["environment" := JStr (deployment "vercel")]>
    (<["endpoints" := JObj
         (<["/" := JStr "GET - API information"]>
         (<["/health" := JStr "GET - Health check"]>
         (<["/status" := JStr "GET - Service status"]>
         (<["/test-connection" := JStr "GET - Test IBKR connection"]>
         (<["/buy" := JStr "POST - Place market buy order"]>
         (<["/sell" := JStr "POST - Place market sell order"]> ∅))))))]> ∅))))).

(** [GET /status]: the flag is not reported. *)
Definition status : M IBKRTrader response :=
  mret (jsonify
    (<["status" := JStr "online"]>
    (<["environment" := JStr (deployment "serverless")]>
    (<["trading_mode" := JStr "paper"]>
    (<["config" := JObj
         (<["host" := JStr (IB_HOST cfg)]>
         (<["port" := JInt (IB_PORT cfg)]>
         (<["client_id" := JInt (CLIENT_ID cfg)]> ∅)))]> ∅))))).

(** [GET /health]; [loop_time] is [str(asyncio.get_event_loop().time())],
    which raises when the thread of the request has no event loop: the
    view has no handler, and the exception leaves it. *)
Definition health : M IBKRTrader response :=
  timestamp ← pure loop_time;
  mret (jsonify
    (<["status" := JStr "healthy"]>
    (<["timestamp" := JStr timestamp]>
    (<["environment" := JStr (deployment "vercel")]> ∅)))).

(** The rules of the application. *)
Definition url_map (request : http_request) (method : http_method) (path : string)
    : M IBKRTrader reply :=
  if decide (path = "/") then route GET method home
  else if decide (path = "/status") then route GET method status
  else if decide (path = "/health") then route GET method health
  else if decide (path = "/test-connection") then route GET method test_connection_route
  else if decide (path = "/buy") then route POST method (buy_stock request)
  else if decide (path = "/sell") then route POST method (sell_stock request)
  else mret NotFound.

(** The application, as the framework serves it. *)
Definition serve (method : http_method) (path : string) (request : http_request)
    : M IBKRTrader reply :=
  dispatch w (url_map request) method path.

End Service.
End App.

(** ** [src/test_api.py]: the test script

    The script talks to the application over HTTP; here [server] is the
    URL map of the application it talks to, and an exception of [server]
    is a failure of the transport. *)

Module TestApi.

(** What [main] prints at the end: the verdict of each test, the count
    of passed tests, the total, and whether it announces "All tests
    passed!". *)
Record summary := Summary {
  results : list (string * bool);
  passed : nat;
  total : nat;
  all_passed : bool
}.

Section Script.
Context {T : Type} (server : http_method → string → http_request → M T reply).

(** [response.json()], which the tests evaluate to print the body. *)
Definition response_json (r : reply) : outcome pydict :=
  match r with
  | Json (body, _) => Ret body
  | _ => Raise (Exception "JSONDecodeError" "Expecting value: line 1 column 1 (char 0)")
  end.

(** A GET request has no body. *)
Definition no_body : http_request :=
  Request (Raise (Exception "UnsupportedMediaType" "415 Unsupported Media Type")).

(** The body of every test: send, print status and body, and answer
    [response.status_code == 200]; any exception answers [False]. *)
Definition attempt (method : http_method) (path : string) (request : http_request)
    : M T bool :=
  try_except
    (response ← server method path request;
     _ ← pure (response_json response);
     mret (bool_decide (status_code response = 200)))
    (λ e, mret false).

Definition test_status : M T bool := attempt GET "/status" no_body.

Definition test_home : M T bool := attempt GET "/" no_body.

Definition test_account : M T bool := attempt GET "/account" no_body.

Definition test_buy_order : M T bool :=
  let order_data : pydict :=
    <["symbol" := JStr "AAPL"]>
    (<["quantity" := JInt 1]>
    (<["order_type" := JStr "MARKET"]> ∅)) in
  attempt POST "/buy" (Request (Ret (JObj order_data))).

Definition test_sell_order : M T bool :=
  let order_data : pydict :=
    <["symbol" := JStr "AAPL"]>
    (<["quantity" := JInt 1]>
    (<["order_type" := JStr "LIMIT"]>
    (<["price" := JFloat (FFinite 200 0)]> ∅))) in
  attempt POST "/sell" (Request (Ret (JObj order_data))).

(** The loop of [main] over the tests. *)
Fixpoint run_tests (tests : list (string * M T bool)) : M T (list (string * bool)) :=
  match tests with
  | [] => mret []
  | (test_name, test_func) :: tests' =>
      success ← test_func;
      rest ← run_tests tests';
      mret ((test_name, success) :: rest)
  end.

(** [main()]; [test_trading] is whether the user answered "y". *)
Definition main (test_trading : bool) : M T summary :=
  let tests :=
    [("Status", test_status); ("Home", test_home); ("Account", test_account)]
    ++ (if test_trading
        then [("Buy Order", test_buy_order); ("Sell Order", test_sell_order)]
        else []) in
  results ← run_tests tests;
  let passed := length (List.filter snd results) in
  let total := length results in
  mret {| results := results; passed := passed; total := total;
          all_passed := bool_decide (passed = total) |}.

End Script.
End TestApi.

(** ** Observing a run *)

Definition result_of {T A} (m : M T A) (s : st T) : outcome A := fst (m s).

Definition state_after {T A} (m : M T A) (s : st T) : st T := snd (m s).

(** The calls made on the client library during the run of [m] from [s],
    oldest first. *)
Definition events_of {T A} (m : M T A) (s : st T) : list event :=
  drop (length (trace (gw s))) (trace (gw (snd (m s)))).

Definition is_handshake (e : event) : bool :=
  match e with EvConnectAsync _ _ _ _ _ => true | _ => false end.

Definition is_placement (e : event) : bool :=
  match e with EvPlaceOrder _ _ _ _ => true | _ => false end.

(** Calls that need a live session to mean anything. *)
Definition uses_session (e : event) : bool :=
  match e with
  | EvManagedAccounts _ _ | EvQualifyContractsAsync _ _ _ | EvPlaceOrder _ _ _ _ => true
  | _ => false
  end.

(** Every call that uses the session comes after an [isConnected] check,
    and the latest such check reported a live session. *)
Fixpoint checked_before_use (live : bool) (evs : list event) : bool :=
  match evs with
  | [] => true
  | EvIsConnected _ b :: evs' => checked_before_use b evs'
  | e :: evs' => (negb (uses_session e) || live) && checked_before_use live evs'
  end.

Definition liveness_verified (evs : list event) : bool := checked_before_use false evs.

(** The answer of the first [isConnected] check of a run, if any. *)
Fixpoint first_check (evs : list event) : option bool :=
  match evs with
  | [] => None
  | EvIsConnected _ b :: _ => Some b
  | _ :: evs' => first_check evs'
  end.

(** The run ended on a liveness check that failed right after one that
    had succeeded. *)
Definition recheck_failed (evs : list event) : bool :=
  match rev evs with
  | EvIsConnected _ false :: EvIsConnected _ true :: _ => true
  | _ => false
  end.

(** The exception a call on the client library raised, if it raised. *)
Definition raised_by (e : event) : option exn :=
  match e with
  | EvConnectAsync _ _ _ _ (Some x) => Some x
  | EvManagedAccounts _ (Raise x) => Some x
  | EvQualifyContractsAsync _ _ (Raise x) => Some x
  | EvPlaceOrder _ _ _ (Raise x) => Some x
  | _ => None
  end.

(** The value a result dict holds under a key. *)
Definition field (k : string) (r : outcome pydict) : option json :=
  match r with
  | Ret d => d !! k
  | Raise _ => None
  end.

(** The error text the caller gets when the call [e] raised [x]: the
    fixed text of [connect] for a handshake, [str(x)] otherwise. *)
Definition reported (e : event) (x : exn) : string :=
  if is_handshake e then "Failed to connect to IBKR" else str_exn x.

(** The status code and the body of what a route returned. *)
Definition response_status (r : outcome response) : option Z :=
  match r with
  | Ret (_, status) => Some status
  | Raise _ => None
  end.

Definition response_body (r : outcome response) : outcome pydict :=
  match r with
  | Ret (body, _) => Ret body
  | Raise e => Raise e
  end.

(** Qualification found no instrument. *)
Definition qualified_none (e : event) : bool :=
  match e with
  | EvQualifyContractsAsync _ _ (Ret []) => true
  | _ => false
  end.


(** The last call of a run leaves the client without a session: it is a
    [disconnect], a liveness check that found no session, or a handshake
    that raised. *)
Definition ends_released (evs : list event) : bool :=
  match last evs with
  | Some (EvDisconnect _) | Some (EvIsConnected _ false)
  | Some (EvConnectAsync _ _ _ _ (Some _)) => true
  | _ => false
  end.

(** A qualification, if [e] is one, is requested for the contract [c]. *)
Definition qualifies (c : contract) (e : event) : Prop :=
  match e with
  | EvQualifyContractsAsync _ c' _ => c' = c
  | _ => True
  end.

(** *** Further observations *)

Definition is_liveness_check (e : event) : bool :=
  match e with EvIsConnected _ _ => true | _ => false end.

Definition is_qualification (e : event) : bool :=
  match e with EvQualifyContractsAsync _ _ _ => true | _ => false end.

Definition is_accounts_query (e : event) : bool :=
  match e with EvManagedAccounts _ _ => true | _ => false end.

(** The call [e] is made on the client [h], which it neither creates nor
    disconnects. *)
Definition keeps_client (h : handle) (e : event) : bool :=
  match e with
  | EvConnectAsync h' _ _ _ _ | EvIsConnected h' _ | EvManagedAccounts h' _
  | EvQualifyContractsAsync h' _ _ | EvPlaceOrder h' _ _ _ => bool_decide (h' = h)
  | EvSleep => true
  | EvIB _ | EvDisconnect _ => false
  end.

(** The number of events of a kind. *)
Definition count (kind : event → bool) (evs : list event) : nat :=
  length (List.filter kind evs).

(** The orders placed during a run, each with its contract and its
    answer, oldest first. *)
Fixpoint placements (evs : list event) : list (contract * order * outcome trade) :=
  match evs with
  | [] => []
  | EvPlaceOrder _ c o r :: evs' => (c, o, r) :: placements evs'
  | _ :: evs' => placements evs'
  end.

(** The first contract of the first qualification that answered. *)
Fixpoint first_qualified (evs : list event) : option contract :=
  match evs with
  | [] => None
  | EvQualifyContractsAsync _ _ (Ret cs) :: _ => head cs
  | _ :: evs' => first_qualified evs'
  end.

(** The accounts the gateway answered, if it was asked and answered. *)
Fixpoint accounts_answered (evs : list event) : option (list string) :=
  match evs with
  | [] => None
  | EvManagedAccounts _ (Ret accounts) :: _ => Some accounts
  | _ :: evs' => accounts_answered evs'
  end.

(** The result dict of a submitted order. *)
Definition order_result (symbol action : string) (quantity : Z) (t : trade) : pydict :=
  <["success" := JBool true]>
  (<["order_id" := JInt (orderId t)]>
  (<["symbol" := JStr symbol]>
  (<["action" := JStr action]>
  (<["quantity" := JInt quantity]>
  (<["order_type" := JStr "MARKET"]>
  (<["status" := JStr (orderStatus_status t)]> ∅)))))).

(** The report of a successful connection test. *)
Definition connection_report (cfg : config) (accounts : list string) : pydict :=
  <["success" := JBool true]>
  (<["connected" := JBool true]>
  (<["accounts" := JArr (JStr <$> accounts)]>
  (<["host" := JStr (IB_HOST cfg)]>
  (<["port" := JInt (IB_PORT cfg)]>
  (<["client_id" := JInt (CLIENT_ID cfg)]> ∅))))).

(** The call [e] raised. *)
Definition raised (e : event) : bool := bool_decide (is_Some (raised_by e)).

(** The anatomy of a submission with events [evs] and result [r]: at most
    one handshake, one qualification and one order; the order, if any, is
    a market order for [quantity] with the action in upper case, on the
    first contract the qualification answered; and [r] is the result dict
    built from the trade, or the message of what [placeOrder] raised.  A
    run without an order reports no success. *)
Definition order_anatomy (w : world) (symbol action : string) (quantity : Z)
    (evs : list event) (r : outcome pydict) : Prop :=
  (count is_handshake evs ≤ 1)%nat
  ∧ (count is_qualification evs ≤ 1)%nat
  ∧ match placements evs with
    | [] => field "success" r = None
    | [(c, o, answer)] =>
        first_qualified evs = Some c
        ∧ o = MarketOrder (str_upper w action) quantity
        ∧ r = Ret (match answer with
                   | Ret t => order_result symbol action quantity t
                   | Raise x => error_body (str_exn x)
                   end)
    | _ => False
    end.

(** A handshake, if [e] is one, is with the configured gateway. *)
Definition targets (cfg : config) (e : event) : Prop :=
  match e with
  | EvConnectAsync _ host port clientId _ =>
      host = IB_HOST cfg ∧ port = IB_PORT cfg ∧ clientId = CLIENT_ID cfg
  | _ => True
  end.

(** The verdict the test script recorded under a name. *)
Fixpoint verdict (name : string) (results : list (string * bool)) : option bool :=
  match results with
  | [] => None
  | (n, b) :: results' => if decide (n = name) then Some b else verdict name results'
  end.

(** *** The protocol of a submission

    What [place_market_order] does, call by call.  The predicates below
    say which sequences of calls on the client library a run may make and
    which result goes with each; a run that makes no call satisfies none
    of them. *)

(** The result of a submission that could not connect. *)
Definition connection_failure : outcome pydict :=
  Ret (error_body "Failed to connect to IBKR").

(** No call follows. *)
Definition nothing_follows (evs : list event) : Prop := evs = [].

(** The [finally] block of the per-request variant follows: a liveness
    check on the client [h], and its [disconnect] when the check found a
    session. *)
Definition released (h : handle) (evs : list event) : Prop :=
  evs = [EvIsConnected h false] ∨ evs = [EvIsConnected h true; EvDisconnect h].

(** The next call is the qualification, on the client [h]. *)
Definition qualification_follows (h : handle) (evs : list event)
    (r : outcome pydict) : Prop :=
  match evs with
  | EvQualifyContractsAsync h1 _ _ :: _ => h1 = h
  | _ => False
  end.

(** The calls of a submission from the qualification on, on the client
    [h], and its result [r]: the qualification is requested for
    [Stock(symbol, "SMART", "USD")]; when it raises or answers no
    contract, the result is the error and no order follows; otherwise
    the next call places [MarketOrder(action.upper(), quantity)] on the
    first contract answered, and the result is the message of what
    [placeOrder] raised or, after the settling delay, the result dict of
    the trade.  [closing] says which calls may follow. *)
Definition submission (w : world) (symbol action : string) (quantity : Z)
    (closing : list event → Prop) (h : handle) (evs : list event)
    (r : outcome pydict) : Prop :=
  match evs with
  | EvQualifyContractsAsync h1 c answer :: evs1 =>
      h1 = h ∧ c = Stock symbol "SMART" "USD"
      ∧ match answer with
        | Raise x => closing evs1 ∧ r = Ret (error_body (str_exn x))
        | Ret [] =>
            closing evs1
            ∧ r = Ret (error_body ("Could not qualify contract for symbol " +:+ symbol))
        | Ret (qualified :: _) =>
            match evs1 with
            | EvPlaceOrder h2 c2 o answer2 :: evs2 =>
                h2 = h ∧ c2 = qualified
                ∧ o = MarketOrder (str_upper w action) quantity
                ∧ match answer2 with
                  | Raise x => closing evs2 ∧ r = Ret (error_body (str_exn x))
                  | Ret t =>
                      match evs2 with
                      | EvSleep :: evs3 =>
                          closing evs3
                          ∧ r = Ret (order_result symbol action quantity t)
                      | _ => False
                      end
                  end
            | _ => False
            end
        end
  | _ => False
  end.

(** The re-check of the long-lived variant: the next call is a liveness
    check on the client [h]; when it finds no session nothing follows and
    the result is the error "No active connection to IBKR"; when it
    finds one, the run goes on as [K] says. *)
Definition rechecked (K : list event → outcome pydict → Prop) (h : handle)
    (evs : list event) (r : outcome pydict) : Prop :=
  match evs with
  | EvIsConnected h1 live :: evs1 =>
      h1 = h
      ∧ if live then K evs1 r
        else evs1 = [] ∧ r = Ret (error_body "No active connection to IBKR")
  | _ => False
  end.

(** The calls of a long-lived submission on the client [h], and its
    result [r].  The first call is a liveness check.  When it finds a
    session, the re-check follows.  When it finds none, [connect] runs: it
    checks again and, finding no session, performs the handshake and
    verifies it; when the handshake raises or the verification finds no
    session, nothing follows and the result is the connection failure;
    in every other case the re-check follows. *)
Definition long_lived_protocol (K : list event → outcome pydict → Prop) (h : handle)
    (evs : list event) (r : outcome pydict) : Prop :=
  match evs with
  | EvIsConnected h1 true :: evs1 => h1 = h ∧ rechecked K h evs1 r
  | EvIsConnected h1 false :: EvIsConnected h2 true :: evs2 =>
      h1 = h ∧ h2 = h ∧ rechecked K h evs2 r
  | EvIsConnected h1 false :: EvIsConnected h2 false
      :: EvConnectAsync h3 _ _ _ answer :: evs3 =>
      h1 = h ∧ h2 = h ∧ h3 = h
      ∧ match answer with
        | Some _ => evs3 = [] ∧ r = connection_failure
        | None =>
            match evs3 with
            | EvIsConnected h4 live :: evs4 =>
                h4 = h
                ∧ if live then rechecked K h evs4 r
                  else evs4 = [] ∧ r = connection_failure
            | _ => False
            end
        end
  | _ => False
  end.

(** The calls of a per-request submission, whose new client is [h], and
    its result [r]: the client is created, the handshake performed and
    verified by one liveness check; when the handshake raises or the
    check finds no session, nothing follows and the result is the
    connection failure; otherwise the run goes on as [K] says, without a
    second check. *)
Definition per_request_protocol (K : list event → outcome pydict → Prop) (h : handle)
    (evs : list event) (r : outcome pydict) : Prop :=
  match evs with
  | EvIB h0 :: EvConnectAsync h1 _ _ _ answer :: evs2 =>
      h0 = h ∧ h1 = h
      ∧ match answer with
        | Some _ => evs2 = [] ∧ r = connection_failure
        | None =>
            match evs2 with
            | EvIsConnected h2 live :: evs3 =>
                h2 = h
                ∧ if live then K evs3 r
                  else evs3 = [] ∧ r = connection_failure
            | _ => False
            end
        end
  | _ => False
  end.

(** The failure report of the per-request [test_connection]. *)
Definition connection_test_failure (cfg : config) (msg : string) : pydict :=
  <["success" := JBool false]>
  (<["error" := JStr msg]>
  (<["host" := JStr (IB_HOST cfg)]>
  (<["port" := JInt (IB_PORT cfg)]>
  (<["client_id" := JInt (CLIENT_ID cfg)]> ∅)))).

(** The calls of a per-request connection test, whose new client is [h],
    and its result [r]: the client is created, the handshake performed
    and verified by one liveness check; when the handshake raises or the
    check finds no session, nothing follows and the result is the failure
    report "Failed to establish connection"; otherwise the accounts are
    asked for, the [finally] block follows, and the result is the report
    with the accounts, or the failure report with the message of what the
    query raised. *)
Definition per_request_test_protocol (cfg : config) (h : handle)
    (evs : list event) (r : outcome pydict) : Prop :=
  match evs with
  | EvIB h0 :: EvConnectAsync h1 _ _ _ answer :: evs2 =>
      h0 = h ∧ h1 = h
      ∧ match answer with
        | Some _ =>
            evs2 = []
            ∧ r = Ret (connection_test_failure cfg "Failed to establish connection")
        | None =>
            match evs2 with
            | EvIsConnected h2 false :: evs3 =>
                h2 = h ∧ evs3 = []
                ∧ r = Ret (connection_test_failure cfg "Failed to establish connection")
            | EvIsConnected h2 true :: EvManagedAccounts h3 accounts :: evs4 =>
                h2 = h ∧ h3 = h ∧ released h evs4
                ∧ r = Ret (match accounts with
                           | Ret accounts => connection_report cfg accounts
                           | Raise x => connection_test_failure cfg (str_exn x)
                           end)
            | _ => False
            end
        end
  | _ => False
  end.

(** The call [e] raised an exception whose message is [msg]. *)
Definition carries (msg : string) (e : event) : bool :=
  match raised_by e with
  | Some x => bool_decide (str_exn x = msg)
  | None => false
  end.

(** *** The order routes before they call the trader

    Both order routes of both variants start with the same statements on
    the request body.  [decode] is that prefix as a function: it raises
    what the prefix raises, answers [None] when the route finds a required
    field missing, and otherwise the [symbol] and [quantity] the route
    passes to [place_market_order]. *)

#[global] Instance outcome_ret : MRet outcome := λ A a, Ret a.

#[global] Instance outcome_bind : MBind outcome := λ A B k r,
  match r with
  | Ret a => k a
  | Raise e => Raise e
  end.

Definition decode (w : world) (request : http_request) : outcome (option (string * Z)) :=
  data ← get_json request;
  has_symbol ← py_in "symbol" data;
  missing ← (if negb has_symbol then mret true
             else has_quantity ← py_in "quantity" data;
                  mret (negb has_quantity));
  if missing : bool then mret None
  else
    v ← py_getitem data "symbol";
    symbol ← py_upper w v;
    v' ← py_getitem data "quantity";
    quantity ← py_int w v';
    mret (Some (symbol, quantity)).

Definition missing_fields : response :=
  (error_body "Missing required fields: symbol and quantity", 400).

(** The uniform rule of the order routes on a result of the trader. *)
Definition status_rule (result : pydict) : response :=
  (result, if bool_decide (is_Some (result !! "error")) then 500 else 200).

(** What an order route does with a request, in terms of [decode] and of
    the submission [submit symbol quantity] it delegates to: a raised
    exception becomes a 500 with its message, a missing field the 400
    validation error, both without touching the trader or the gateway; a
    decoded request is answered by the [status_rule] on the result of the
    submission. *)
Definition order_route {T} (w : world) (route : http_request → M T response)
    (submit : string → Z → M T pydict) : Prop :=
  ∀ (request : http_request) (s : st T),
    match decode w request with
    | Raise e => route request s = (Ret (error_body (str_exn e), 500), s)
    | Ret None => route request s = (Ret missing_fields, s)
    | Ret (Some (symbol, quantity)) =>
        ∃ d, result_of (submit symbol quantity) s = Ret d
             ∧ route request s
               = (Ret (status_rule d), state_after (submit symbol quantity) s)
    end.

(** The route answers [request] with a 500 that carries the message of
    [e], and touches neither the trader nor the gateway. *)
Definition answers_500 {T} (route : http_request → M T response)
    (request : http_request) (e : exn) : Prop :=
  ∀ s : st T, route request s = (Ret (error_body (str_exn e), 500), s).

(** The route answers [request] with the 400 validation error, and
    touches neither the trader nor the gateway. *)
Definition answers_400 {T} (route : http_request → M T response)
    (request : http_request) : Prop :=
  ∀ s : st T, route request s = (Ret missing_fields, s).

(** A body that names both fields without being an object raises [e] at
    the subscript; one that lacks a name gets the validation error. *)
Definition answers_if {T} (both : bool) (route : http_request → M T response)
    (request : http_request) (e : exn) : Prop :=
  if both then answers_500 route request e else answers_400 route request.

(** What the catch-all handler of an order route answers, body by body. *)
Definition catch_all {T} (w : world) (route : http_request → M T response) : Prop :=
  (∀ e, answers_500 route (Request (Raise e)) e)
  ∧ (∀ data e, py_in "symbol" data = Raise e → answers_500 route (Request (Ret data)) e)
  ∧ (∀ o v v' e,
       o !! "symbol" = Some v → o !! "quantity" = Some v' →
       py_upper w v = Raise e →
       answers_500 route (Request (Ret (JObj o))) e)
  ∧ (∀ o v v' symbol e,
       o !! "symbol" = Some v → o !! "quantity" = Some v' →
       py_upper w v = Ret symbol → py_int w v' = Raise e →
       answers_500 route (Request (Ret (JObj o))) e)
  ∧ (∀ l,
       answers_if (existsb (is_str "symbol") l && existsb (is_str "quantity") l)
         route (Request (Ret (JArr l)))
         (TypeError "list indices must be integers or slices, not str"))
  ∧ (∀ s,
       answers_if (is_substring "symbol" s && is_substring "quantity" s)
         route (Request (Ret (JStr s)))
         (TypeError "string indices must be integers, not 'str'")).

(** If [e] is an order it is a market order with action [act]. *)
Definition market_order_with (act : string) (e : event) : Prop :=
  match e with
  | EvPlaceOrder _ _ o _ => orderType o = "MKT" ∧ o_action o = act
  | _ => True
  end.

(** The route gives two requests the same answer from every state. *)
Definition same_answer {T} (route : http_request → M T response)
    (request request' : http_request) : Prop :=
  ∀ s : st T, route request s = route request' s.

(** The response has one of the three shapes of an order route. *)
Definition uniform_status {T} (route : http_request → M T response) : Prop :=
  ∀ (request : http_request) (s : st T),
    ∃ body status,
      result_of (route request) s = Ret (body, status)
      ∧ ((status = 400 ∧ (body, status) = missing_fields ∧ state_after (route request) s = s)
         ∨ (status = 500 ∧ is_Some (body !! "error"))
         ∨ (status = 200 ∧ body !! "error" = None)).

(** The long-lived route answers [request] by a submission of [action]
    for [symbol] and [quantity]: its calls on the client library are
    those of the protocol, and its response is the result of the
    submission under the status rule. *)
Definition long_lived_route_submits (w : world)
    (route : http_request → M ApiIndex.IBKRTrader response) (request : http_request)
    (symbol action : string) (quantity : Z) : Prop :=
  ∀ s, ∃ d,
    result_of (route request) s = Ret (status_rule d)
    ∧ long_lived_protocol
        (submission w symbol action quantity nothing_follows (ApiIndex.ib (self s)))
        (ApiIndex.ib (self s)) (events_of (route request) s) (Ret d).

(** The same for a route of the per-request variant. *)
Definition per_request_route_submits (w : world)
    (route : http_request → M App.IBKRTrader response) (request : http_request)
    (symbol action : string) (quantity : Z) : Prop :=
  ∀ s, ∃ d,
    result_of (route request) s = Ret (status_rule d)
    ∧ per_request_protocol
        (submission w symbol action quantity
           (released (length (sessions (gw s)))) (length (sessions (gw s))))
        (length (sessions (gw s))) (events_of (route request) s) (Ret d).

(** ** Sample worlds and inputs *)

Definition cfg0 : config := {| IB_HOST := "127.0.0.1"; IB_PORT := 7497; CLIENT_ID := 1 |}.

Definition aapl : contract :=
  {| secType := "STK"; conId := 265598; c_symbol := "AAPL";
     exchange := "SMART"; currency := "USD" |}.

(** The samples are run on ASCII text and canonical paths only; on other
    inputs their interpreter leaves the text alone and refuses to read
    it, and their framework finds no rule. *)
Definition no_int (s : string) : outcome Z :=
  Raise (Exception "ValueError" "invalid literal for int() with base 10").

(** A reachable paper gateway: every handshake completes, it knows one
    account, qualifies every stock and accepts every order. *)
Definition w_up : world :=
  {| w_drop := λ _, false;
     w_connectAsync := λ _ _ _ _, None;
     w_managedAccounts := λ _, Ret ["DU123456"];
     w_qualifyContractsAsync := λ _ c, Ret [aapl];
     w_placeOrder := λ _ _ _, Ret (Trade 7 "PreSubmitted");
     w_disconnect := λ _, None;
     w_upper := λ s, s;
     w_int := no_int;
     w_routing := λ _ _, Unmatched |}.

(** The world [w], with the gateway answering as [drop], [handshake],
    [qualify] and [place] say. *)
Definition with_gateway (w : world) (drop : nat → bool)
    (handshake : nat → string → Z → Z → option exn)
    (qualify : nat → contract → outcome (list contract))
    (place : nat → contract → order → outcome trade) : world :=
  {| w_drop := drop;
     w_connectAsync := handshake;
     w_managedAccounts := w_managedAccounts w;
     w_qualifyContractsAsync := qualify;
     w_placeOrder := place;
     w_disconnect := w_disconnect w;
     w_upper := w_upper w;
     w_int := w_int w;
     w_routing := w_routing w |}.

(** No gateway is listening: every handshake is refused. *)
Definition w_down : world :=
  {| w_drop := λ _, false;
     w_connectAsync := λ _ _ _ _, Some (Exception "ConnectionRefusedError" "Connection refused");
     w_managedAccounts := λ _, Ret [];
     w_qualifyContractsAsync := λ _ _, Ret [];
     w_placeOrder := λ _ _ _, Raise (Exception "ConnectionError" "Not connected");
     w_disconnect := λ _, None;
     w_upper := λ s, s;
     w_int := no_int;
     w_routing := λ _ _, Unmatched |}.

(** The gateway is reachable, and every session is lost at once. *)
Definition w_flaky : world :=
  with_gateway w_up (λ _, true) (w_connectAsync w_up)
    (w_qualifyContractsAsync w_up) (w_placeOrder w_up).

(** The gateway of [w_up], except that every session is lost from
    instant [n] on. *)
Definition w_drops_from (n : nat) : world :=
  with_gateway w_up (λ t, bool_decide (n ≤ t)%nat) (w_connectAsync w_up)
    (w_qualifyContractsAsync w_up) (w_placeOrder w_up).

(** The gateway of [w_up], except that it knows no instrument. *)
Definition w_unknown : world :=
  with_gateway w_up (w_drop w_up) (w_connectAsync w_up)
    (λ _ _, Ret []) (w_placeOrder w_up).

(** The gateway of [w_up], except that it rejects every order. *)
Definition w_rejects : world :=
  with_gateway w_up (w_drop w_up) (w_connectAsync w_up)
    (w_qualifyContractsAsync w_up)
    (λ _ _ _, Raise (Exception "ConnectionError" "Socket disconnect")).

(** The gateway of [w_up], seen from coroutines that each run under an
    event loop of their own: a [disconnect] of a session another
    coroutine opened raises, after the client has marked itself
    disconnected. *)
Definition w_loops : world :=
  {| w_drop := w_drop w_up;
     w_connectAsync := w_connectAsync w_up;
     w_managedAccounts := w_managedAccounts w_up;
     w_qualifyContractsAsync := w_qualifyContractsAsync w_up;
     w_placeOrder := w_placeOrder w_up;
     w_disconnect := λ _, Some (Exception "RuntimeError" "Event loop is closed", false);
     w_upper := w_upper w_up;
     w_int := w_int w_up;
     w_routing := w_routing w_up |}.

Definition g0 : gateway := {| sessions := []; clock := 0; trace := [] |}.

(** ** Symbolic execution *)

Ltac unfold_service :=
  cbv beta iota zeta delta
    [result_of state_after events_of
     mbind mret M_bind M_ret pure call try_except try_finally
     frame method get_local set_local
     IB connectAsync isConnected managedAccounts qualifyContractsAsync
     placeOrder sleep ib_disconnect ib_disconnect_later
     ApiIndex.get_ib ApiIndex.get_connected ApiIndex.set_connected
     ApiIndex.connect ApiIndex.test_connection ApiIndex.disconnect
     ApiIndex.place_market_order ApiIndex.test_connection_route
     ApiIndex.ib ApiIndex.connected
     App.set_connected App.connect App.release App.test_connection
     App.disconnect App.place_market_order App.test_connection_route
     App.connected
     self gw sessions clock trace fst snd negb].

Lemma insert_fresh (ss : list bool) (b x : bool) :
  <[length ss := b]> (ss ++ [x]) = ss ++ [b].
Proof. induction ss; simpl; congruence. Qed.

Lemma lookup_fresh (ss : list bool) (x : bool) :
  default false ((ss ++ [x]) !! length ss) = x.
Proof. induction ss; simpl; auto. Qed.

Lemma dead_after_drop (ss : list bool) (h : handle) :
  default false (<[h := false]> ss !! h) = false.
Proof.
  destruct (decide (h < length ss)%nat).
  - by rewrite list_lookup_insert_eq.
  - rewrite list_insert_ge by lia. by rewrite lookup_ge_None_2 by lia.
Qed.

Lemma events_app (tr new : list event) : drop (length tr) (tr ++ new) = new.
Proof. apply drop_app_length. Qed.

(** Case analysis on the next answer of the world. *)
Ltac split_world w :=
  match goal with
  | |- context [w_drop w ?t] => destruct (w_drop w t) eqn:?
  | |- context [w_connectAsync w ?t ?a ?b ?c] =>
      destruct (w_connectAsync w t a b c) eqn:?
  | |- context [w_managedAccounts w ?t] => destruct (w_managedAccounts w t) eqn:?
  | |- context [w_qualifyContractsAsync w ?t ?c] =>
      destruct (w_qualifyContractsAsync w t c) as [[|? ?]|?] eqn:?
  | |- context [w_placeOrder w ?t ?c ?o] => destruct (w_placeOrder w t c o) eqn:?
  | |- context [w_disconnect w ?t] => destruct (w_disconnect w t) as [[? ?]|] eqn:?
  end.

(** Case analysis on what [isConnected] observes. *)
Ltac split_live :=
  match goal with
  | H : default false (?l !! ?h) = _ |- context [default false (?l !! ?h)] => rewrite H
  | |- context [default false (?l !! ?h)] => destruct (default false (l !! h)) eqn:?
  end.

(** Execution along every path, leaving the session table abstract:
    each [isConnected] may answer either way. *)
Ltac run w :=
  unfold_service; repeat (first [split_world w | split_live]; unfold_service).

(** The same, following the session table exactly. *)
Ltac simpl_sessions :=
  rewrite ?list_insert_insert_eq, ?insert_fresh, ?lookup_fresh, ?dead_after_drop.

Ltac settle := repeat progress (unfold_service; cbv delta [arrive]; simpl_sessions).

Ltac run_exact w := settle; repeat (first [split_world w | split_live]; settle).

(** Name the result and the final state of the run [x], and execute it
    once, whatever the number of places the goal mentions it. *)
Ltac observe x :=
  unfold result_of, events_of, state_after;
  let H := fresh "Hrun" in destruct x as [? ?] eqn:H; revert H.

Ltac norm_trace :=
  rewrite <- ?(assoc_L (++)); cbn [app]; rewrite ?events_app, ?drop_all.

Ltac finish_run := intros [= <- <-]; norm_trace.

(** Split a conjunction into its conjuncts, and nothing else. *)
Ltac conjuncts := cbv zeta; repeat match goal with |- _ ∧ _ => split end.

(** Evaluate a closed run. *)
Ltac evaluate := vm_compute; first [reflexivity | repeat constructor].

(** A property of every event of an explicit list, event by event. *)
Ltac each_event tac := repeat (apply List.Forall_cons; [tac|]); apply List.Forall_nil.

(** A run against a protocol: the predicates are evaluated on the calls
    of the run, and what is left is equations. *)
Ltac unfold_protocol :=
  cbv beta iota zeta delta
    [long_lived_protocol per_request_protocol per_request_test_protocol
     rechecked submission qualification_follows nothing_follows released
     connection_failure].

Ltac check_protocol :=
  unfold_protocol; conjuncts;
  first [reflexivity | left; reflexivity | right; reflexivity].

(** The statements of an order route before it calls the trader, case by
    case. *)
Ltac unfold_route :=
  cbv beta iota zeta delta
    [ApiIndex.buy_stock ApiIndex.sell_stock App.buy_stock App.sell_stock decode
     mbind mret M_bind M_ret outcome_bind outcome_ret pure try_except negb
     result_of state_after fst snd].

Ltac route_cases w request :=
  intros request s; unfold_route;
  destruct (get_json request) as [data|?]; [|reflexivity];
  destruct (py_in "symbol" data) as [[|]|?]; try reflexivity;
  destruct (py_in "quantity" data) as [[|]|?]; try reflexivity;
  destruct (py_getitem data "symbol") as [v|?]; [|reflexivity];
  destruct (py_upper w v) as [symbol|?]; [|reflexivity];
  destruct (py_getitem data "quantity") as [v'|?]; [|reflexivity];
  destruct (py_int w v') as [quantity|?]; [|reflexivity].

(** ** The embedding at work *)

Example upper_aapl :
  str_upper w_up "aapl" = "AAPL" ∧ str_upper w_up "Brk.b-1" = "BRK.B-1".
Proof. conjuncts; evaluate. Qed.

(** [repr] of the text [a<TAB>b], of [it's] and of [\]. *)
Example py_repr_escapes :
  py_repr (String "a" (String (ascii_of_nat 9) "b"))
  = String "'" (String "a" (String backslash "tb'"))
  ∧ py_repr "it's" = String double_quote ("it's" +:+ String double_quote EmptyString)
  ∧ py_repr (String backslash EmptyString)
    = String "'" (String backslash (String backslash "'"))
  ∧ py_repr (String (ascii_of_nat 28) "5")
    = String "'" (String backslash "x1c5'").
Proof. conjuncts; evaluate. Qed.

Example int_of_str_literals :
  int_of_str " 12 " = Some 12
  ∧ int_of_str "-7" = Some (-7)
  ∧ int_of_str "+007" = Some 7
  ∧ int_of_str "1_000" = Some 1000
  ∧ int_of_str "1__0" = None
  ∧ int_of_str "5.0" = None
  ∧ int_of_str "" = None
  ∧ int_of_str "- 5" = None
  ∧ int_of_str (String (ascii_of_nat 28) "5") = None.
Proof. conjuncts; evaluate. Qed.

(** [int(5.75) = 5], [int(-5.75) = -5], [int(True) = 1], [int(None)] raises. *)
Example py_int_values (w : world) :
  py_int w (JFloat (FFinite 23 (-2))) = Ret 5
  ∧ py_int w (JFloat (FFinite (-23) (-2))) = Ret (-5)
  ∧ py_int w (JBool true) = Ret 1
  ∧ py_int w (JStr "10") = Ret 10
  ∧ py_int w (JStr "ten")
    = Raise (ValueError "invalid literal for int() with base 10: 'ten'")
  ∧ py_int w JNull
    = Raise (TypeError "int() argument must be a string, a bytes-like object or a real number, not 'NoneType'").
Proof. conjuncts; reflexivity. Qed.

(** [POST /buy] with [{"symbol": "aapl", "quantity": 5}] on a reachable
    gateway, per-request variant: the client is created, connected,
    checked, used and disconnected, and the answer is a 200. *)
Example buy_on_reachable_gateway :
  let request :=
    Request (Ret (JObj (list_to_map [("symbol", JStr "aapl"); ("quantity", JInt 5)]))) in
  let r := result_of (App.buy_stock cfg0 w_up request) (App.init g0) in
  response_status r = Some 200
  ∧ field "success" (response_body r) = Some (JBool true)
  ∧ field "symbol" (response_body r) = Some (JStr "AAPL")
  ∧ field "action" (response_body r) = Some (JStr "BUY")
  ∧ field "quantity" (response_body r) = Some (JInt 5)
  ∧ field "order_type" (response_body r) = Some (JStr "MARKET")
  ∧ field "status" (response_body r) = Some (JStr "PreSubmitted")
  ∧ events_of (App.buy_stock cfg0 w_up request) (App.init g0)
    = [EvIB 0; EvConnectAsync 0 "127.0.0.1" 7497 1 None; EvIsConnected 0 true;
       EvQualifyContractsAsync 0 (Stock "AAPL" "SMART" "USD") (Ret [aapl]);
       EvPlaceOrder 0 aapl (MarketOrder "BUY" 5) (Ret (Trade 7 "PreSubmitted"));
       EvSleep; EvIsConnected 0 true; EvDisconnect 0].
Proof. conjuncts; evaluate. Qed.

(** The same request in the long-lived variant: the client of the trader
    is checked, connected, checked twice more and used; it stays
    connected. *)
Example buy_on_reachable_gateway_long_lived :
  let request :=
    Request (Ret (JObj (list_to_map [("symbol", JStr "aapl"); ("quantity", JInt 5)]))) in
  let run := ApiIndex.buy_stock cfg0 w_up request in
  response_status (result_of run (ApiIndex.init g0)) = Some 200
  ∧ events_of run (ApiIndex.init g0)
    = [EvIsConnected 0 false; EvIsConnected 0 false;
       EvConnectAsync 0 "127.0.0.1" 7497 1 None; EvIsConnected 0 true;
       EvIsConnected 0 true;
       EvQualifyContractsAsync 0 (Stock "AAPL" "SMART" "USD") (Ret [aapl]);
       EvPlaceOrder 0 aapl (MarketOrder "BUY" 5) (Ret (Trade 7 "PreSubmitted"));
       EvSleep]
  ∧ is_live 0 (gw (state_after run (ApiIndex.init g0))) = true
  ∧ ApiIndex.connected (self (state_after run (ApiIndex.init g0))) = true.
Proof. conjuncts; evaluate. Qed.

(** ** C1: liveness is verified before the session is used *)

Lemma ApiIndex_order_liveness (cfg : config) (w : world) (symbol action : string)
    (quantity : Z) (s : st ApiIndex.IBKRTrader) :
  let run := ApiIndex.place_market_order cfg w symbol action quantity in
  liveness_verified (events_of run s) = true
  ∧ (∃ b, head (events_of run s) = Some (EvIsConnected (ApiIndex.ib (self s)) b))
  ∧ (recheck_failed (events_of run s) = true →
       result_of run s = Ret (error_body "No active connection to IBKR")
       ∧ existsb uses_session (events_of run s) = false).
Proof.
  destruct s as [[h c] [ss t tr]]; intros run.
  observe (run (St (ApiIndex.Trader h c) (Gateway ss t tr))); subst run.
  run w; finish_run; (split; [reflexivity|]); (split; [by eexists|]);
    intros H; vm_compute in H; try discriminate H; split; reflexivity.
Qed.

Lemma ApiIndex_order_ignores_flag (cfg : config) (w : world) (symbol action : string)
    (quantity : Z) (s : st ApiIndex.IBKRTrader) (flag : bool) :
  let run := ApiIndex.place_market_order cfg w symbol action quantity in
  let s0 := St (ApiIndex.Trader (ApiIndex.ib (self s)) flag) (gw s) in
  result_of run s0 = result_of run s ∧ gw (state_after run s0) = gw (state_after run s).
Proof.
  destruct s as [[h c] [ss t tr]]; intros run s0.
  observe (run s0); observe (run (St (ApiIndex.Trader h c) (Gateway ss t tr))).
  subst run s0.
  run w; intros [= <- <-] [= <- <-]; split; reflexivity.
Qed.

Lemma App_order_liveness (cfg : config) (w : world) (symbol action : string)
    (quantity : Z) (s : st App.IBKRTrader) :
  let run := App.place_market_order cfg w symbol action quantity in
  liveness_verified (events_of run s) = true
  ∧ (first_check (events_of run s) = Some false →
       result_of run s = Ret (error_body "Failed to connect to IBKR")
       ∧ existsb uses_session (events_of run s) = false).
Proof.
  destruct s as [[c] [ss t tr]]; intros run.
  observe (run (St (App.Trader c) (Gateway ss t tr))); subst run.
  run w; finish_run; (split; [reflexivity|]);
    intros H; vm_compute in H; try discriminate H; split; reflexivity.
Qed.

Lemma App_test_liveness (cfg : config) (w : world) (s : st App.IBKRTrader) :
  let run := App.test_connection cfg w in
  liveness_verified (events_of run s) = true
  ∧ (first_check (events_of run s) = Some false →
       field "error" (result_of run s) = Some (JStr "Failed to establish connection")
       ∧ existsb uses_session (events_of run s) = false).
Proof.
  destruct s as [[c] [ss t tr]]; intros run.
  observe (run (St (App.Trader c) (Gateway ss t tr))); subst run.
  run w; finish_run; (split; [reflexivity|]);
    intros H; vm_compute in H; try discriminate H; split; reflexivity.
Qed.

(** In the per-request variant no operation reads the cached flag. *)
Lemma App_ignores_flag (cfg : config) (w : world) (symbol action : string)
    (quantity : Z) (g : gateway) (flag flag' : bool) :
  App.place_market_order cfg w symbol action quantity (St (App.Trader flag) g)
  = App.place_market_order cfg w symbol action quantity (St (App.Trader flag') g)
  ∧ App.test_connection cfg w (St (App.Trader flag) g)
    = App.test_connection cfg w (St (App.Trader flag') g).
Proof.
  split.
  - observe (App.place_market_order cfg w symbol action quantity (St (App.Trader flag) g)).
    observe (App.place_market_order cfg w symbol action quantity (St (App.Trader flag') g)).
    destruct g as [ss t tr]. run w; intros [= <- <-] [= <- <-]; reflexivity.
  - observe (App.test_connection cfg w (St (App.Trader flag) g)).
    observe (App.test_connection cfg w (St (App.Trader flag') g)).
    destruct g as [ss t tr]. run w; intros [= <- <-] [= <- <-]; reflexivity.
Qed.

(** The long-lived submission, call by call, up to the qualification. *)
Lemma ApiIndex_order_rechecks (cfg : config) (w : world) (symbol action : string)
    (quantity : Z) (s : st ApiIndex.IBKRTrader) :
  let run := ApiIndex.place_market_order cfg w symbol action quantity in
  let h := ApiIndex.ib (self s) in
  long_lived_protocol (qualification_follows h) h (events_of run s) (result_of run s).
Proof.
  destruct s as [[h c] [ss t tr]]; intros run h0; subst h0.
  observe (run (St (ApiIndex.Trader h c) (Gateway ss t tr))); subst run.
  run w; finish_run; cbn [self ApiIndex.ib]; check_protocol.
Qed.

(** The per-request submission, call by call, up to the qualification;
    the text "No active connection to IBKR" is not one of its own. *)
Lemma App_order_checks_once (cfg : config) (w : world) (symbol action : string)
    (quantity : Z) (s : st App.IBKRTrader) :
  let run := App.place_market_order cfg w symbol action quantity in
  let h := length (sessions (gw s)) in
  per_request_protocol (qualification_follows h) h (events_of run s) (result_of run s)
  ∧ (result_of run s = Ret (error_body "No active connection to IBKR") →
     existsb (carries "No active connection to IBKR") (events_of run s) = true).
Proof.
  destruct s as [[c] [ss t tr]]; intros run h0; subst h0.
  observe (run (St (App.Trader c) (Gateway ss t tr))); subst run.
  run w; finish_run; cbn [gw sessions]; (split; [check_protocol|]);
    try match goal with e : exn |- _ => destruct e as [? ?] end;
    intros H; apply (f_equal (field "error")) in H; vm_compute in H;
    first [discriminate H | injection H as ->; vm_compute; reflexivity].
Qed.

(** The per-request connection test, call by call. *)
Lemma App_test_protocol (cfg : config) (w : world) (s : st App.IBKRTrader) :
  let run := App.test_connection cfg w in
  per_request_test_protocol cfg (length (sessions (gw s)))
    (events_of run s) (result_of run s).
Proof.
  destruct s as [[c] [ss t tr]]; intros run.
  observe (run (St (App.Trader c) (Gateway ss t tr))); subst run.
  run w; finish_run; cbn [gw sessions]; check_protocol.
Qed.

(** C1, as the code has it.  Long-lived variant: [place_market_order]
    asks [isConnected] before anything else, whatever the cached flag (on
    which neither its result nor its gateway calls depend); every call
    that uses the session follows a liveness check that reported live;
    when the first check finds no session, [connect] is attempted, and
    after a liveness check that found a session, be it the first one or
    the one by which [connect] verified its handshake, the next call is
    always the re-check: when the re-check reports no session, the result
    is the error "No active connection to IBKR" and neither qualification
    nor placement is called, and when it reports one the qualification
    follows.  Per-request variant: [place_market_order] and
    [test_connection] never read the cached flag; every call that uses the
    session follows the liveness check of [connect]; that check is the
    only one before the qualification, and when it reports no session the
    operation returns its connection failure ("Failed to connect to IBKR",
    "Failed to establish connection") without using the session, and when
    it reports a session the qualification, or the accounts query,
    follows; the text "No active connection to IBKR" is returned only if
    a call on the client library raised an exception with that
    message. *)
Theorem C1_liveness_is_reverified (cfg : config) (w : world)
    (symbol action : string) (quantity : Z) :
  (∀ s : st ApiIndex.IBKRTrader,
     let run := ApiIndex.place_market_order cfg w symbol action quantity in
     let h := ApiIndex.ib (self s) in
     liveness_verified (events_of run s) = true
     ∧ (∃ b, head (events_of run s) = Some (EvIsConnected (ApiIndex.ib (self s)) b))
     ∧ (∀ flag : bool,
          let s0 := St (ApiIndex.Trader (ApiIndex.ib (self s)) flag) (gw s) in
          result_of run s0 = result_of run s
          ∧ gw (state_after run s0) = gw (state_after run s))
     ∧ (recheck_failed (events_of run s) = true →
          result_of run s = Ret (error_body "No active connection to IBKR")
          ∧ existsb uses_session (events_of run s) = false)
     ∧ long_lived_protocol (qualification_follows h) h
         (events_of run s) (result_of run s))
  ∧ (∀ (g : gateway) (flag : bool),
       let s := St (App.Trader flag) g in
       let run := App.place_market_order cfg w symbol action quantity in
       let h := length (sessions g) in
       run s = run (St (App.Trader (negb flag)) g)
       ∧ liveness_verified (events_of run s) = true
       ∧ (first_check (events_of run s) = Some false →
            result_of run s = Ret (error_body "Failed to connect to IBKR")
            ∧ existsb uses_session (events_of run s) = false)
       ∧ per_request_protocol (qualification_follows h) h
           (events_of run s) (result_of run s)
       ∧ (result_of run s = Ret (error_body "No active connection to IBKR") →
          existsb (carries "No active connection to IBKR") (events_of run s) = true))
  ∧ (∀ (g : gateway) (flag : bool),
       let s := St (App.Trader flag) g in
       let run := App.test_connection cfg w in
       run s = run (St (App.Trader (negb flag)) g)
       ∧ liveness_verified (events_of run s) = true
       ∧ (first_check (events_of run s) = Some false →
            field "error" (result_of run s) = Some (JStr "Failed to establish connection")
            ∧ existsb uses_session (events_of run s) = false)
       ∧ per_request_test_protocol cfg (length (sessions g))
           (events_of run s) (result_of run s)).
Proof.
  split; [|split].
  - intros s run h.
    destruct (ApiIndex_order_liveness cfg w symbol action quantity s) as (Hv & Hh & Hr).
    split; [exact Hv|]. split; [exact Hh|].
    split; [intros flag; apply ApiIndex_order_ignores_flag|].
    split; [exact Hr|]. apply ApiIndex_order_rechecks.
  - intros g flag s run h.
    split; [apply App_ignores_flag|].
    destruct (App_order_liveness cfg w symbol action quantity s) as (Hv & Hc).
    split; [exact Hv|]. split; [exact Hc|].
    apply (App_order_checks_once cfg w symbol action quantity s).
  - intros g flag s run.
    split; [apply (App_ignores_flag cfg w symbol action quantity)|].
    destruct (App_test_liveness cfg w s) as (Hv & Hc).
    split; [exact Hv|]. split; [exact Hc|].
    apply (App_test_protocol cfg w s).
Qed.

(** The re-check of the long-lived variant at work.  From a trader that
    is not connected: the first check finds no session, [connect]
    performs the handshake and verifies it at instant 3, and the session
    is lost before the re-check at instant 4.  From a trader with a live
    session: the session is lost between the check at instant 0 and the
    re-check at instant 1.  In both runs the result is "No active
    connection to IBKR" and the session is not used. *)
Lemma C1_recheck_witness :
  let reconnect := ApiIndex.place_market_order cfg0 (w_drops_from 4) "AAPL" "BUY" 5 in
  let s := St (ApiIndex.Trader 0 true) (Gateway [true] 0 []) in
  let reuse := ApiIndex.place_market_order cfg0 (w_drops_from 1) "AAPL" "BUY" 5 in
  (events_of reconnect (ApiIndex.init g0)
   = [EvIsConnected 0 false; EvIsConnected 0 false;
      EvConnectAsync 0 "127.0.0.1" 7497 1 None; EvIsConnected 0 true;
      EvIsConnected 0 false]
   ∧ result_of reconnect (ApiIndex.init g0)
     = Ret (error_body "No active connection to IBKR")
   ∧ existsb uses_session (events_of reconnect (ApiIndex.init g0)) = false)
  ∧ (events_of reuse s = [EvIsConnected 0 true; EvIsConnected 0 false]
     ∧ result_of reuse s = Ret (error_body "No active connection to IBKR")
     ∧ existsb uses_session (events_of reuse s) = false).
Proof.
  intros reconnect s reuse.
  assert (H1 : recheck_failed (events_of reconnect (ApiIndex.init g0)) = true)
    by (vm_compute; reflexivity).
  assert (H2 : recheck_failed (events_of reuse s) = true) by (vm_compute; reflexivity).
  split; (split; [vm_compute; reflexivity|]).
  - exact (proj1 (proj2 (proj2 (proj2 (proj1 (C1_liveness_is_reverified cfg0 (w_drops_from 4)
                                                "AAPL" "BUY" 5) (ApiIndex.init g0))))) H1).
  - exact (proj1 (proj2 (proj2 (proj2 (proj1 (C1_liveness_is_reverified cfg0 (w_drops_from 1)
                                                "AAPL" "BUY" 5) s)))) H2).
Defined.

(** C1 as stated fails on the code.  Long-lived variant: after a first
    [test_connection] the flag is set; the session is then lost, and the
    second [test_connection] trusts the flag: it calls no [isConnected],
    uses the session and reports [connected: true].  Per-request variant:
    a failed liveness check after the handshake is reported as "Failed to
    connect to IBKR"; the error "No active connection to IBKR" does not
    exist there. *)
Lemma C1_stale_flag_is_trusted :
  let w := w_drops_from 2 in
  let s1 := state_after (ApiIndex.test_connection cfg0 w) (ApiIndex.init g0) in
  let again := ApiIndex.test_connection cfg0 w in
  ApiIndex.connected (self s1) = true
  ∧ events_of again s1 = [EvManagedAccounts 0 (Ret ["DU123456"])]
  ∧ liveness_verified (events_of again s1) = false
  ∧ field "connected" (result_of again s1) = Some (JBool true)
  ∧ is_live 0 (gw (state_after again s1)) = false
  ∧ events_of (App.place_market_order cfg0 w_flaky "AAPL" "BUY" 5) (App.init g0)
    = [EvIB 0; EvConnectAsync 0 "127.0.0.1" 7497 1 None; EvIsConnected 0 false]
  ∧ result_of (App.place_market_order cfg0 w_flaky "AAPL" "BUY" 5) (App.init g0)
    = Ret (error_body "Failed to connect to IBKR").
Proof. conjuncts; evaluate. Qed.

(** ** C2: the failure report of [test_connection] *)

Lemma ApiIndex_test_report (cfg : config) (w : world) (s : st ApiIndex.IBKRTrader) :
  let r := result_of (ApiIndex.test_connection cfg w) s in
  (field "success" r = Some (JBool true) ∧ is_Some (field "accounts" r))
  ∨ r = Ret {[ "success" := JBool false ]}.
Proof.
  destruct s as [[h c] [ss t tr]]; intros r; subst r.
  observe (ApiIndex.test_connection cfg w (St (ApiIndex.Trader h c) (Gateway ss t tr))).
  destruct c; run w; intros [= <- <-];
    first [by right | left; split; [reflexivity | by eexists]].
Qed.

Lemma App_test_report (cfg : config) (w : world) (s : st App.IBKRTrader) :
  let r := result_of (App.test_connection cfg w) s in
  (field "success" r = Some (JBool true) ∧ is_Some (field "accounts" r))
  ∨ (field "success" r = Some (JBool false)
     ∧ is_Some (field "error" r)
     ∧ field "host" r = Some (JStr (IB_HOST cfg))
     ∧ field "port" r = Some (JInt (IB_PORT cfg))
     ∧ field "client_id" r = Some (JInt (CLIENT_ID cfg))
     ∧ field "accounts" r = None).
Proof.
  destruct s as [[c] [ss t tr]]; intros r; subst r.
  observe (App.test_connection cfg w (St (App.Trader c) (Gateway ss t tr))).
  run w; intros [= <- <-];
    first [ left; split; [reflexivity | by eexists]
          | right; split; [reflexivity|]; split; [by eexists|]; repeat split; reflexivity ].
Qed.

(** C2 on the code.  When the gateway refuses the handshake, the
    long-lived [test_connection] returns [{"success": False}] and nothing
    else: no host, no port, no client id.  That holds of every failure of
    the long-lived variant.  The per-request variant does what the claim
    says: its failure report carries [host], [port] and [client_id], an
    [error] text and no [accounts]. *)
Theorem C2_failure_report :
  (let r := result_of (ApiIndex.test_connection cfg0 w_down) (ApiIndex.init g0) in
   r = Ret {[ "success" := JBool false ]}
   ∧ field "host" r = None ∧ field "port" r = None ∧ field "client_id" r = None)
  ∧ (∀ (cfg : config) (w : world) (s : st ApiIndex.IBKRTrader),
       let r := result_of (ApiIndex.test_connection cfg w) s in
       (field "success" r = Some (JBool true) ∧ is_Some (field "accounts" r))
       ∨ r = Ret {[ "success" := JBool false ]})
  ∧ (∀ (cfg : config) (w : world) (s : st App.IBKRTrader),
       let r := result_of (App.test_connection cfg w) s in
       (field "success" r = Some (JBool true) ∧ is_Some (field "accounts" r))
       ∨ (field "success" r = Some (JBool false)
          ∧ is_Some (field "error" r)
          ∧ field "host" r = Some (JStr (IB_HOST cfg))
          ∧ field "port" r = Some (JInt (IB_PORT cfg))
          ∧ field "client_id" r = Some (JInt (CLIENT_ID cfg))
          ∧ field "accounts" r = None)).
Proof.
  split; [|split].
  - conjuncts; evaluate.
  - apply ApiIndex_test_report.
  - apply App_test_report.
Qed.

(** ** C4: connecting twice *)

Lemma ApiIndex_connect_when_live (cfg : config) (w : world) (s : st ApiIndex.IBKRTrader) :
  is_live (ApiIndex.ib (self s)) (gw s) = true →
  w_drop w (clock (gw s)) = false →
  result_of (ApiIndex.connect cfg w) s = Ret true
  ∧ events_of (ApiIndex.connect cfg w) s = [EvIsConnected (ApiIndex.ib (self s)) true]
  ∧ sessions (gw (state_after (ApiIndex.connect cfg w) s)) = sessions (gw s)
  ∧ ApiIndex.connected (self (state_after (ApiIndex.connect cfg w) s)) = true.
Proof.
  destruct s as [[h c] [ss t tr]]; unfold is_live; cbn [self gw sessions clock ApiIndex.ib].
  intros Hlive Hdrop.
  observe (ApiIndex.connect cfg w (St (ApiIndex.Trader h c) (Gateway ss t tr))).
  settle; rewrite Hdrop, Hlive; settle; finish_run; repeat split; reflexivity.
Qed.

Lemma ApiIndex_connect_leaves_live (cfg : config) (w : world) (s : st ApiIndex.IBKRTrader) :
  result_of (ApiIndex.connect cfg w) s = Ret true →
  is_live (ApiIndex.ib (self s)) (gw (state_after (ApiIndex.connect cfg w) s)) = true
  ∧ ApiIndex.ib (self (state_after (ApiIndex.connect cfg w) s)) = ApiIndex.ib (self s).
Proof.
  destruct s as [[h c] [ss t tr]]; unfold is_live.
  observe (ApiIndex.connect cfg w (St (ApiIndex.Trader h c) (Gateway ss t tr))).
  run_exact w; intros [= <- <-] Hok; try discriminate Hok;
    cbn [self gw sessions snd ApiIndex.ib]; split;
    first [assumption | reflexivity | congruence].
Qed.

Lemma App_connect_handshakes (cfg : config) (w : world) (s : st App.IBKRTrader) :
  ∃ r rest,
    events_of (App.connect cfg w) s
    = EvIB (length (sessions (gw s)))
      :: EvConnectAsync (length (sessions (gw s))) (IB_HOST cfg) (IB_PORT cfg) (CLIENT_ID cfg) r
      :: rest.
Proof.
  destruct s as [[c] [ss t tr]].
  observe (App.connect cfg w (St (App.Trader c) (Gateway ss t tr))).
  run w; finish_run; by eexists _, _.
Qed.

(** C4, as the code has it.  Long-lived variant: when [connect] has
    returned success and the session is not lost before the next call, a
    second [connect] returns success again, and all it does is ask
    [isConnected]: no handshake, the session table untouched.  Per-request
    variant: every [connect] creates a new client object and performs a
    handshake on it. *)
Theorem C4_connect_twice (cfg : config) (w : world) :
  (∀ s : st ApiIndex.IBKRTrader,
     let connect := ApiIndex.connect cfg w in
     let s1 := state_after connect s in
     result_of connect s = Ret true →
     w_drop w (clock (gw s1)) = false →
     result_of connect s1 = Ret true
     ∧ events_of connect s1 = [EvIsConnected (ApiIndex.ib (self s)) true]
     ∧ existsb is_handshake (events_of connect s1) = false
     ∧ sessions (gw (state_after connect s1)) = sessions (gw s1)
     ∧ ApiIndex.connected (self (state_after connect s1)) = true)
  ∧ (∀ s : st App.IBKRTrader,
       ∃ r rest,
         events_of (App.connect cfg w) s
         = EvIB (length (sessions (gw s)))
           :: EvConnectAsync (length (sessions (gw s)))
                (IB_HOST cfg) (IB_PORT cfg) (CLIENT_ID cfg) r
           :: rest).
Proof.
  split; [|apply App_connect_handshakes].
  intros s connect s1 Hok Hdrop.
  destruct (ApiIndex_connect_leaves_live cfg w s Hok) as [Hlive Hib].
  fold connect s1 in Hlive, Hib. rewrite <- Hib in Hlive.
  destruct (ApiIndex_connect_when_live cfg w s1 Hlive Hdrop) as (H1 & H2 & H3 & H4).
  fold connect in H1, H2, H3, H4. rewrite Hib in H2.
  repeat split; try assumption. by rewrite H2.
Qed.

(** The first [connect] on a reachable gateway succeeds, the second one
    only checks. *)
Lemma C4_connect_twice_witness :
  let connect := ApiIndex.connect cfg0 w_up in
  let s1 := state_after connect (ApiIndex.init g0) in
  result_of connect s1 = Ret true
  ∧ events_of connect s1 = [EvIsConnected 0 true]
  ∧ existsb is_handshake (events_of connect s1) = false
  ∧ sessions (gw (state_after connect s1)) = sessions (gw s1)
  ∧ ApiIndex.connected (self (state_after connect s1)) = true.
Proof.
  apply (proj1 (C4_connect_twice cfg0 w_up) (ApiIndex.init g0)); reflexivity.
Defined.

(** C4 as stated fails in the per-request variant: two calls of [connect]
    on a reachable gateway both succeed, and each performs its own
    handshake on its own client. *)
Lemma C4_per_request_handshakes_again :
  let connect := App.connect cfg0 w_up in
  let s1 := state_after connect (App.init g0) in
  result_of connect (App.init g0) = Ret (Some 0%nat)
  ∧ App.connected (self s1) = true
  ∧ is_live 0 (gw s1) = true
  ∧ result_of connect s1 = Ret (Some 1%nat)
  ∧ events_of connect s1
    = [EvIB 1; EvConnectAsync 1 "127.0.0.1" 7497 1 None; EvIsConnected 1 true]
  ∧ existsb is_handshake (events_of connect s1) = true.
Proof. conjuncts; evaluate. Qed.

(** ** C8: the per-request variant releases what it opened *)

Lemma App_test_releases (cfg : config) (w : world) (s : st App.IBKRTrader) :
  let run := App.test_connection cfg w in
  (∃ d, result_of run s = Ret d)
  ∧ sessions (gw (state_after run s)) = sessions (gw s) ++ [false]
  ∧ ends_released (events_of run s) = true.
Proof.
  destruct s as [[c] [ss t tr]]; intros run.
  observe (run (St (App.Trader c) (Gateway ss t tr))); subst run.
  run_exact w; finish_run; (split; [by eexists|]); split; reflexivity.
Qed.

Lemma App_order_releases (cfg : config) (w : world) (symbol action : string)
    (quantity : Z) (s : st App.IBKRTrader) :
  let run := App.place_market_order cfg w symbol action quantity in
  (∃ d, result_of run s = Ret d)
  ∧ sessions (gw (state_after run s)) = sessions (gw s) ++ [false]
  ∧ ends_released (events_of run s) = true.
Proof.
  destruct s as [[c] [ss t tr]]; intros run.
  observe (run (St (App.Trader c) (Gateway ss t tr))); subst run.
  run_exact w; finish_run; (split; [by eexists|]); split; reflexivity.
Qed.

(** C8.  In the per-request variant [test_connection] and
    [place_market_order] always return (no exception escapes), and when
    they return the one client object they created holds no session: the
    session table is the one before the call, extended by the new client
    without a session.  The last call on the client library is the
    [disconnect] of the [finally] block, or the liveness check that found
    nothing to disconnect, or the handshake that raised. *)
Theorem C8_per_request_release (cfg : config) (w : world) (symbol action : string)
    (quantity : Z) (s : st App.IBKRTrader) :
  let test := App.test_connection cfg w in
  let submit := App.place_market_order cfg w symbol action quantity in
  ((∃ d, result_of test s = Ret d)
   ∧ sessions (gw (state_after test s)) = sessions (gw s) ++ [false]
   ∧ ends_released (events_of test s) = true)
  ∧ ((∃ d, result_of submit s = Ret d)
     ∧ sessions (gw (state_after submit s)) = sessions (gw s) ++ [false]
     ∧ ends_released (events_of submit s) = true).
Proof.
  split; [apply App_test_releases | apply App_order_releases].
Qed.

(** ** C6: qualification comes first *)

Lemma ApiIndex_order_qualifies (cfg : config) (w : world) (symbol action : string)
    (quantity : Z) (s : st ApiIndex.IBKRTrader) :
  let run := ApiIndex.place_market_order cfg w symbol action quantity in
  Forall (qualifies (Stock symbol "SMART" "USD")) (events_of run s)
  ∧ (existsb qualified_none (events_of run s) = true →
       result_of run s
       = Ret (error_body ("Could not qualify contract for symbol " +:+ symbol))
       ∧ existsb is_placement (events_of run s) = false).
Proof.
  destruct s as [[h c] [ss t tr]]; intros run.
  observe (run (St (ApiIndex.Trader h c) (Gateway ss t tr))); subst run.
  run w; finish_run; (split; [by repeat constructor|]);
    intros H; vm_compute in H; try discriminate H; split; reflexivity.
Qed.

Lemma App_order_qualifies (cfg : config) (w : world) (symbol action : string)
    (quantity : Z) (s : st App.IBKRTrader) :
  let run := App.place_market_order cfg w symbol action quantity in
  Forall (qualifies (Stock symbol "SMART" "USD")) (events_of run s)
  ∧ (existsb qualified_none (events_of run s) = true →
       result_of run s
       = Ret (error_body ("Could not qualify contract for symbol " +:+ symbol))
       ∧ existsb is_placement (events_of run s) = false).
Proof.
  destruct s as [[c] [ss t tr]]; intros run.
  observe (run (St (App.Trader c) (Gateway ss t tr))); subst run.
  run w; finish_run; (split; [by repeat constructor|]);
    intros H; vm_compute in H; try discriminate H; split; reflexivity.
Qed.

(** The long-lived submission, call by call. *)
Lemma ApiIndex_order_protocol (cfg : config) (w : world) (symbol action : string)
    (quantity : Z) (s : st ApiIndex.IBKRTrader) :
  let run := ApiIndex.place_market_order cfg w symbol action quantity in
  let h := ApiIndex.ib (self s) in
  long_lived_protocol (submission w symbol action quantity nothing_follows h) h
    (events_of run s) (result_of run s).
Proof.
  destruct s as [[h c] [ss t tr]]; intros run h0; subst h0.
  observe (run (St (ApiIndex.Trader h c) (Gateway ss t tr))); subst run.
  run w; finish_run; cbn [self ApiIndex.ib]; check_protocol.
Qed.

(** The per-request submission, call by call. *)
Lemma App_order_protocol (cfg : config) (w : world) (symbol action : string)
    (quantity : Z) (s : st App.IBKRTrader) :
  let run := App.place_market_order cfg w symbol action quantity in
  let h := length (sessions (gw s)) in
  per_request_protocol (submission w symbol action quantity (released h) h) h
    (events_of run s) (result_of run s).
Proof.
  destruct s as [[c] [ss t tr]]; intros run h0; subst h0.
  observe (run (St (App.Trader c) (Gateway ss t tr))); subst run.
  run w; finish_run; cbn [gw sessions]; check_protocol.
Qed.

(** C6.  In both variants [place_market_order], once connected (in the
    long-lived variant: once the re-check found the session live; in the
    per-request variant: once [connect] verified its handshake), always
    requests the qualification of [Stock(symbol, "SMART", "USD")] as its
    next call, and it places an order only as the call that follows a
    qualification that answered a contract, on the first contract
    answered.  Every qualification it requests is for that contract, and
    when a qualification answers with no contract the result is the error
    "Could not qualify contract for symbol" followed by the requested
    symbol, and [placeOrder] is not called. *)
Theorem C6_qualification_short_circuit (cfg : config) (w : world)
    (symbol action : string) (quantity : Z) :
  (∀ s : st ApiIndex.IBKRTrader,
     let run := ApiIndex.place_market_order cfg w symbol action quantity in
     let h := ApiIndex.ib (self s) in
     Forall (qualifies (Stock symbol "SMART" "USD")) (events_of run s)
     ∧ (existsb qualified_none (events_of run s) = true →
          result_of run s
          = Ret (error_body ("Could not qualify contract for symbol " +:+ symbol))
          ∧ existsb is_placement (events_of run s) = false)
     ∧ long_lived_protocol (submission w symbol action quantity nothing_follows h) h
         (events_of run s) (result_of run s))
  ∧ (∀ s : st App.IBKRTrader,
       let run := App.place_market_order cfg w symbol action quantity in
       let h := length (sessions (gw s)) in
       Forall (qualifies (Stock symbol "SMART" "USD")) (events_of run s)
       ∧ (existsb qualified_none (events_of run s) = true →
            result_of run s
            = Ret (error_body ("Could not qualify contract for symbol " +:+ symbol))
            ∧ existsb is_placement (events_of run s) = false)
       ∧ per_request_protocol (submission w symbol action quantity (released h) h) h
           (events_of run s) (result_of run s)).
Proof.
  split; intros s run h.
  - destruct (ApiIndex_order_qualifies cfg w symbol action quantity s) as [H1 H2].
    split; [exact H1|]. split; [exact H2|]. apply ApiIndex_order_protocol.
  - destruct (App_order_qualifies cfg w symbol action quantity s) as [H1 H2].
    split; [exact H1|]. split; [exact H2|]. apply App_order_protocol.
Qed.

(** A gateway that knows no instrument: the long-lived variant, both
    when it has to connect and when it reuses a live session, and the
    per-request variant stop at the qualification of "XYZ". *)
Lemma C6_qualification_witness :
  let unknown := Ret (error_body "Could not qualify contract for symbol XYZ") in
  let long_lived := ApiIndex.place_market_order cfg0 w_unknown "XYZ" "BUY" 1 in
  let per_request := App.place_market_order cfg0 w_unknown "XYZ" "BUY" 1 in
  let connected := St (ApiIndex.Trader 0 true) (Gateway [true] 0 []) in
  (events_of long_lived (ApiIndex.init g0)
   = [EvIsConnected 0 false; EvIsConnected 0 false;
      EvConnectAsync 0 "127.0.0.1" 7497 1 None; EvIsConnected 0 true;
      EvIsConnected 0 true;
      EvQualifyContractsAsync 0 (Stock "XYZ" "SMART" "USD") (Ret [])]
   ∧ result_of long_lived (ApiIndex.init g0) = unknown
   ∧ existsb is_placement (events_of long_lived (ApiIndex.init g0)) = false)
  ∧ (events_of long_lived connected
     = [EvIsConnected 0 true; EvIsConnected 0 true;
        EvQualifyContractsAsync 0 (Stock "XYZ" "SMART" "USD") (Ret [])]
     ∧ result_of long_lived connected = unknown
     ∧ existsb is_placement (events_of long_lived connected) = false)
  ∧ (events_of per_request (App.init g0)
     = [EvIB 0; EvConnectAsync 0 "127.0.0.1" 7497 1 None; EvIsConnected 0 true;
        EvQualifyContractsAsync 0 (Stock "XYZ" "SMART" "USD") (Ret []);
        EvIsConnected 0 true; EvDisconnect 0]
     ∧ result_of per_request (App.init g0) = unknown
     ∧ existsb is_placement (events_of per_request (App.init g0)) = false).
Proof.
  intros unknown long_lived per_request connected.
  assert (H1 : existsb qualified_none (events_of long_lived (ApiIndex.init g0)) = true)
    by (vm_compute; reflexivity).
  assert (H2 : existsb qualified_none (events_of long_lived connected) = true)
    by (vm_compute; reflexivity).
  assert (H3 : existsb qualified_none (events_of per_request (App.init g0)) = true)
    by (vm_compute; reflexivity).
  pose proof (C6_qualification_short_circuit cfg0 w_unknown "XYZ" "BUY" 1) as [Ha Hb].
  split; [|split]; (split; [vm_compute; reflexivity|]).
  - exact (proj1 (proj2 (Ha (ApiIndex.init g0))) H1).
  - exact (proj1 (proj2 (Ha connected)) H2).
  - exact (proj1 (proj2 (Hb (App.init g0))) H3).
Defined.

(** ** C7: exceptions inside [place_market_order] *)

Lemma ApiIndex_order_catches (cfg : config) (w : world) (symbol action : string)
    (quantity : Z) (s : st ApiIndex.IBKRTrader) :
  let run := ApiIndex.place_market_order cfg w symbol action quantity in
  (∃ d, result_of run s = Ret d)
  ∧ Forall (λ e, ∀ x, raised_by e = Some x →
              result_of run s = Ret (error_body (reported e x))
              ∧ ApiIndex.connected (self (state_after run s)) = false)
      (events_of run s).
Proof.
  destruct s as [[h c] [ss t tr]]; intros run.
  observe (run (St (ApiIndex.Trader h c) (Gateway ss t tr))); subst run.
  run w; finish_run; (split; [by eexists|]);
    each_event ltac:(intros x H; cbn [raised_by] in H;
                     first [discriminate H | injection H as <-; split; reflexivity]).
Qed.

Lemma App_order_catches (cfg : config) (w : world) (symbol action : string)
    (quantity : Z) (s : st App.IBKRTrader) :
  let run := App.place_market_order cfg w symbol action quantity in
  (∃ d, result_of run s = Ret d)
  ∧ Forall (λ e, ∀ x, raised_by e = Some x →
              result_of run s = Ret (error_body (reported e x))
              ∧ App.connected (self (state_after run s)) = false)
      (events_of run s).
Proof.
  destruct s as [[c] [ss t tr]]; intros run.
  observe (run (St (App.Trader c) (Gateway ss t tr))); subst run.
  run w; finish_run; (split; [by eexists|]);
    each_event ltac:(intros x H; cbn [raised_by] in H;
                     first [discriminate H | injection H as <-; split; reflexivity]).
Qed.

(** C7, as the code has it.  In both variants [place_market_order]
    always returns a result dict: no exception reaches the caller.  When a
    call on the client library raised during the run, the result is an
    error result and the cached flag is false afterwards; the error text
    is the message of the exception when qualification or placement
    raised, and the fixed text "Failed to connect to IBKR" when the
    handshake raised (that exception is caught inside [connect]). *)
Theorem C7_exceptions_become_errors (cfg : config) (w : world)
    (symbol action : string) (quantity : Z) :
  (∀ s : st ApiIndex.IBKRTrader,
     let run := ApiIndex.place_market_order cfg w symbol action quantity in
     (∃ d, result_of run s = Ret d)
     ∧ Forall (λ e, ∀ x, raised_by e = Some x →
                 result_of run s = Ret (error_body (reported e x))
                 ∧ ApiIndex.connected (self (state_after run s)) = false)
         (events_of run s))
  ∧ (∀ s : st App.IBKRTrader,
       let run := App.place_market_order cfg w symbol action quantity in
       (∃ d, result_of run s = Ret d)
       ∧ Forall (λ e, ∀ x, raised_by e = Some x →
                   result_of run s = Ret (error_body (reported e x))
                   ∧ App.connected (self (state_after run s)) = false)
           (events_of run s)).
Proof.
  split; intros s; [apply ApiIndex_order_catches | apply App_order_catches].
Qed.

(** A gateway that rejects every order: [placeOrder] raises, and both
    variants return the message of that exception with the flag cleared. *)
Lemma C7_exceptions_witness :
  let x := Exception "ConnectionError" "Socket disconnect" in
  let e := EvPlaceOrder 0 aapl (MarketOrder "BUY" 5) (Raise x) in
  let long_lived := ApiIndex.place_market_order cfg0 w_rejects "AAPL" "buy" 5 in
  let per_request := App.place_market_order cfg0 w_rejects "AAPL" "buy" 5 in
  (e ∈ events_of long_lived (ApiIndex.init g0)
   ∧ result_of long_lived (ApiIndex.init g0) = Ret (error_body "Socket disconnect")
   ∧ ApiIndex.connected (self (state_after long_lived (ApiIndex.init g0))) = false)
  ∧ (e ∈ events_of per_request (App.init g0)
     ∧ result_of per_request (App.init g0) = Ret (error_body "Socket disconnect")
     ∧ App.connected (self (state_after per_request (App.init g0))) = false).
Proof.
  intros x e long_lived per_request.
  assert (H1 : e ∈ events_of long_lived (ApiIndex.init g0))
    by (vm_compute; repeat constructor).
  assert (H2 : e ∈ events_of per_request (App.init g0))
    by (vm_compute; repeat constructor).
  pose proof (C7_exceptions_become_errors cfg0 w_rejects "AAPL" "buy" 5) as [Ha Hb].
  split; (split; [assumption|]).
  - exact (proj1 (Forall_forall _ _) (proj2 (Ha (ApiIndex.init g0))) e H1 x eq_refl).
  - exact (proj1 (Forall_forall _ _) (proj2 (Hb (App.init g0))) e H2 x eq_refl).
Defined.

(** C7 as stated fails on the code: when the gateway refuses the
    handshake with "Connection refused", the exception is caught inside
    [connect] and the caller gets the fixed text, not the message of the
    exception. *)
Lemma C7_handshake_message_is_lost :
  let x := Exception "ConnectionRefusedError" "Connection refused" in
  let run := ApiIndex.place_market_order cfg0 w_down "AAPL" "BUY" 5 in
  EvConnectAsync 0 "127.0.0.1" 7497 1 (Some x) ∈ events_of run (ApiIndex.init g0)
  ∧ result_of run (ApiIndex.init g0) = Ret (error_body "Failed to connect to IBKR")
  ∧ result_of run (ApiIndex.init g0) ≠ Ret (error_body (str_exn x))
  ∧ result_of (App.place_market_order cfg0 w_down "AAPL" "BUY" 5) (App.init g0)
    = Ret (error_body "Failed to connect to IBKR").
Proof.
  conjuncts.
  - evaluate.
  - evaluate.
  - intros H; apply (f_equal (field "error")) in H; vm_compute in H; discriminate H.
  - evaluate.
Qed.

(** ** The order routes *)

Lemma ApiIndex_buy_route (cfg : config) (w : world) :
  order_route w (ApiIndex.buy_stock cfg w)
    (λ symbol quantity, ApiIndex.place_market_order cfg w symbol "BUY" quantity).
Proof.
  route_cases w request.
  destruct (ApiIndex_order_catches cfg w symbol "BUY" quantity s) as [[d Hd] _].
  exists d; split; [exact Hd|].
  unfold result_of in Hd.
  destruct (ApiIndex.place_market_order cfg w symbol "BUY" quantity s) as [r s'].
  cbn [fst] in Hd; subst r. unfold status_rule. by case_bool_decide.
Qed.

Lemma ApiIndex_sell_route (cfg : config) (w : world) :
  order_route w (ApiIndex.sell_stock cfg w)
    (λ symbol quantity, ApiIndex.place_market_order cfg w symbol "SELL" quantity).
Proof.
  route_cases w request.
  destruct (ApiIndex_order_catches cfg w symbol "SELL" quantity s) as [[d Hd] _].
  exists d; split; [exact Hd|].
  unfold result_of in Hd.
  destruct (ApiIndex.place_market_order cfg w symbol "SELL" quantity s) as [r s'].
  cbn [fst] in Hd; subst r. unfold status_rule. by case_bool_decide.
Qed.

Lemma App_buy_route (cfg : config) (w : world) :
  order_route w (App.buy_stock cfg w)
    (λ symbol quantity, App.place_market_order cfg w symbol "BUY" quantity).
Proof.
  route_cases w request.
  destruct (App_order_catches cfg w symbol "BUY" quantity s) as [[d Hd] _].
  exists d; split; [exact Hd|].
  unfold result_of in Hd.
  destruct (App.place_market_order cfg w symbol "BUY" quantity s) as [r s'].
  cbn [fst] in Hd; subst r. unfold status_rule. by case_bool_decide.
Qed.

Lemma App_sell_route (cfg : config) (w : world) :
  order_route w (App.sell_stock cfg w)
    (λ symbol quantity, App.place_market_order cfg w symbol "SELL" quantity).
Proof.
  route_cases w request.
  destruct (App_order_catches cfg w symbol "SELL" quantity s) as [[d Hd] _].
  exists d; split; [exact Hd|].
  unfold result_of in Hd.
  destruct (App.place_market_order cfg w symbol "SELL" quantity s) as [r s'].
  cbn [fst] in Hd; subst r. unfold status_rule. by case_bool_decide.
Qed.

(** *** [decode], body by body *)

Lemma decode_object (w : world) (o : gmap string json) :
  decode w (Request (Ret (JObj o)))
  = match o !! "symbol", o !! "quantity" with
    | Some v, Some v' =>
        symbol ← py_upper w v; quantity ← py_int w v'; Ret (Some (symbol, quantity))
    | _, _ => Ret None
    end.
Proof.
  unfold decode, py_in, py_getitem; cbn [get_json mbind outcome_bind].
  destruct (o !! "symbol") as [v|], (o !! "quantity") as [v'|]; cbn; try reflexivity.
  all: by destruct (py_upper w v).
Qed.

Lemma decode_array (w : world) (l : list json) :
  decode w (Request (Ret (JArr l)))
  = if existsb (is_str "symbol") l && existsb (is_str "quantity") l
    then Raise (TypeError "list indices must be integers or slices, not str")
    else Ret None.
Proof.
  unfold decode, py_in; cbn [get_json mbind outcome_bind].
  by destruct (existsb (is_str "symbol") l), (existsb (is_str "quantity") l).
Qed.

Lemma decode_string (w : world) (s : string) :
  decode w (Request (Ret (JStr s)))
  = if is_substring "symbol" s && is_substring "quantity" s
    then Raise (TypeError "string indices must be integers, not 'str'")
    else Ret None.
Proof.
  unfold decode, py_in; cbn [get_json mbind outcome_bind].
  by destruct (is_substring "symbol" s), (is_substring "quantity" s).
Qed.

Lemma order_route_catch_all {T} (w : world) (route : http_request → M T response)
    (submit : string → Z → M T pydict) :
  order_route w route submit → catch_all w route.
Proof.
  intros Hroute; repeat apply conj.
  - intros e s. exact (Hroute (Request (Raise e)) s).
  - intros data e He s. specialize (Hroute (Request (Ret data)) s).
    unfold decode in Hroute; cbn [get_json mbind outcome_bind] in Hroute.
    by rewrite He in Hroute.
  - intros o v v' e Hv Hv' He s. specialize (Hroute (Request (Ret (JObj o))) s).
    by rewrite decode_object, Hv, Hv', He in Hroute.
  - intros o v v' symbol e Hv Hv' Hs He s.
    specialize (Hroute (Request (Ret (JObj o))) s).
    rewrite decode_object, Hv, Hv', Hs in Hroute.
    cbn [mbind outcome_bind] in Hroute. by rewrite He in Hroute.
  - intros l. unfold answers_if.
    destruct (existsb (is_str "symbol") l && existsb (is_str "quantity") l) eqn:Hboth;
      intros s; specialize (Hroute (Request (Ret (JArr l))) s);
      by rewrite decode_array, Hboth in Hroute.
  - intros x. unfold answers_if.
    destruct (is_substring "symbol" x && is_substring "quantity" x) eqn:Hboth;
      intros s; specialize (Hroute (Request (Ret (JStr x))) s);
      by rewrite decode_string, Hboth in Hroute.
Qed.

Lemma order_route_uniform {T} (w : world) (route : http_request → M T response)
    (submit : string → Z → M T pydict) :
  order_route w route submit → uniform_status route.
Proof.
  intros Hroute request s. specialize (Hroute request s). unfold result_of, state_after.
  destruct (decode w request) as [[[symbol quantity]|]|e].
  - destruct Hroute as (d & _ & ->). unfold status_rule. cbn [fst snd].
    eexists _, _; split; [reflexivity|]. case_bool_decide; [right; left | right; right].
    + by split.
    + split; [reflexivity|]. by apply eq_None_not_Some.
  - rewrite Hroute. eexists _, _; split; [reflexivity|]. by left.
  - rewrite Hroute. eexists _, _; split; [reflexivity|]. right; left.
    split; [reflexivity|]. unfold error_body. rewrite lookup_singleton_eq. by eexists.
Qed.

Lemma order_route_events {T} (w : world) (route : http_request → M T response)
    (submit : string → Z → M T pydict) (P : event → Prop) :
  order_route w route submit →
  (∀ symbol quantity s, Forall P (events_of (submit symbol quantity) s)) →
  ∀ request s, Forall P (events_of (route request) s).
Proof.
  intros Hroute Hsubmit request s. specialize (Hroute request s). unfold events_of.
  destruct (decode w request) as [[[symbol quantity]|]|e].
  - destruct Hroute as (d & _ & ->). apply Hsubmit.
  - rewrite Hroute. cbn [snd]. rewrite drop_all. constructor.
  - rewrite Hroute. cbn [snd]. rewrite drop_all. constructor.
Qed.

Lemma order_route_same_answer {T} (w : world) (route : http_request → M T response)
    (submit : string → Z → M T pydict) (o o' : gmap string json) :
  order_route w route submit →
  o !! "symbol" = o' !! "symbol" → o !! "quantity" = o' !! "quantity" →
  same_answer route (Request (Ret (JObj o))) (Request (Ret (JObj o'))).
Proof.
  intros Hroute Hs Hq s.
  pose proof (Hroute (Request (Ret (JObj o))) s) as H1.
  pose proof (Hroute (Request (Ret (JObj o'))) s) as H2.
  rewrite decode_object in H1, H2. rewrite <- Hs, <- Hq in H2.
  destruct (match o !! "symbol" with Some _ => _ | None => _ end) as [[[symbol quantity]|]|e].
  - destruct H1 as (d & Hd & ->), H2 as (d' & Hd' & ->). congruence.
  - congruence.
  - congruence.
Qed.

(** A body the routes accept: an object whose ["symbol"] is a string and
    whose ["quantity"] [int] reads. *)
Lemma order_route_accepts {T} (w : world) (route : http_request → M T response)
    (submit : string → Z → M T pydict) (o : gmap string json)
    (text : string) (v : json) (quantity : Z) :
  order_route w route submit →
  o !! "symbol" = Some (JStr text) → o !! "quantity" = Some v → py_int w v = Ret quantity →
  ∀ s, ∃ d,
    result_of (submit (str_upper w text) quantity) s = Ret d
    ∧ route (Request (Ret (JObj o))) s
      = (Ret (status_rule d), state_after (submit (str_upper w text) quantity) s).
Proof.
  intros Hroute Hs Hq Hint s. specialize (Hroute (Request (Ret (JObj o))) s).
  rewrite decode_object, Hs, Hq in Hroute. cbn [py_upper mbind outcome_bind] in Hroute.
  by rewrite Hint in Hroute.
Qed.

(** A route that ends in the state a submission leaves made the calls of
    that submission. *)
Lemma route_run {T} (route : M T response) (submit : M T pydict) (s : st T)
    (x : response) :
  route s = (Ret x, state_after submit s) →
  result_of route s = Ret x ∧ events_of route s = events_of submit s.
Proof. intros H. unfold result_of, events_of, state_after in *. by rewrite H. Qed.

(** ** C3: status codes *)

Lemma ApiIndex_test_route (cfg : config) (w : world) (s : st ApiIndex.IBKRTrader) :
  ∃ d, result_of (ApiIndex.test_connection cfg w) s = Ret d
       ∧ ApiIndex.test_connection_route cfg w s
         = (Ret (d, 200), state_after (ApiIndex.test_connection cfg w) s).
Proof.
  destruct s as [[h c] [ss t tr]].
  unfold ApiIndex.test_connection_route;
    cbv beta iota zeta delta [mbind mret M_bind M_ret try_except jsonify].
  observe (ApiIndex.test_connection cfg w (St (ApiIndex.Trader h c) (Gateway ss t tr))).
  destruct c; run w; intros [= <- <-]; by eexists.
Qed.

Lemma App_test_route (cfg : config) (w : world) (s : st App.IBKRTrader) :
  ∃ d, result_of (App.test_connection cfg w) s = Ret d
       ∧ App.test_connection_route cfg w s
         = (Ret (d, 200), state_after (App.test_connection cfg w) s).
Proof.
  destruct s as [[c] [ss t tr]].
  unfold App.test_connection_route;
    cbv beta iota zeta delta [mbind mret M_bind M_ret try_except jsonify].
  observe (App.test_connection cfg w (St (App.Trader c) (Gateway ss t tr))).
  run w; intros [= <- <-]; by eexists.
Qed.

(** C3, as the code has it.  The routes [/buy] and [/sell] of both
    variants answer a decoded request by the uniform rule on the result of
    [place_market_order]: status 500 when the result has an ["error"] key,
    200 when it has none; a request with a missing field gets the 400
    validation error, and a request whose decoding raises gets a 500, both
    before any call of the trader.  So every response of these routes is a
    400 validation error with the state untouched, a 500 whose body has an
    ["error"] key, or a 200 whose body has none.  The route
    [/test-connection] does not apply the rule: it answers 200 with
    whatever report [test_connection] returned. *)
Theorem C3_status_codes (cfg : config) (w : world) :
  (order_route w (ApiIndex.buy_stock cfg w)
     (λ symbol quantity, ApiIndex.place_market_order cfg w symbol "BUY" quantity)
   ∧ order_route w (ApiIndex.sell_stock cfg w)
       (λ symbol quantity, ApiIndex.place_market_order cfg w symbol "SELL" quantity)
   ∧ order_route w (App.buy_stock cfg w)
       (λ symbol quantity, App.place_market_order cfg w symbol "BUY" quantity)
   ∧ order_route w (App.sell_stock cfg w)
       (λ symbol quantity, App.place_market_order cfg w symbol "SELL" quantity))
  ∧ (uniform_status (ApiIndex.buy_stock cfg w)
     ∧ uniform_status (ApiIndex.sell_stock cfg w)
     ∧ uniform_status (App.buy_stock cfg w)
     ∧ uniform_status (App.sell_stock cfg w))
  ∧ (∀ s : st ApiIndex.IBKRTrader,
       ∃ d, result_of (ApiIndex.test_connection cfg w) s = Ret d
            ∧ ApiIndex.test_connection_route cfg w s
              = (Ret (d, 200), state_after (ApiIndex.test_connection cfg w) s))
  ∧ (∀ s : st App.IBKRTrader,
       ∃ d, result_of (App.test_connection cfg w) s = Ret d
            ∧ App.test_connection_route cfg w s
              = (Ret (d, 200), state_after (App.test_connection cfg w) s)).
Proof.
  pose proof (ApiIndex_buy_route cfg w) as H1.
  pose proof (ApiIndex_sell_route cfg w) as H2.
  pose proof (App_buy_route cfg w) as H3.
  pose proof (App_sell_route cfg w) as H4.
  split; [by repeat apply conj|].
  split; [repeat apply conj; eapply order_route_uniform; eassumption|].
  split; [apply ApiIndex_test_route | apply App_test_route].
Qed.

(** C3 as stated fails on the route [/test-connection] of the per-request
    variant: when the gateway refuses the handshake, the report has an
    ["error"] key and the status is 200. *)
Lemma C3_test_connection_error_with_200 :
  let r := result_of (App.test_connection_route cfg0 w_down) (App.init g0) in
  response_status r = Some 200
  ∧ field "error" (response_body r) = Some (JStr "Failed to establish connection").
Proof. conjuncts; evaluate. Qed.

(** ** C5: missing fields *)

Lemma order_route_missing {T} (w : world) (route : http_request → M T response)
    (submit : string → Z → M T pydict) (o : gmap string json) :
  order_route w route submit →
  o !! "symbol" = None ∨ o !! "quantity" = None →
  answers_400 route (Request (Ret (JObj o))).
Proof.
  intros Hroute Hmissing s. specialize (Hroute (Request (Ret (JObj o))) s).
  rewrite decode_object in Hroute.
  destruct Hmissing as [Hm|Hm]; rewrite Hm in Hroute; [done|].
  by destruct (o !! "symbol").
Qed.

(** C5.  When the body is a JSON object without the key ["symbol"] or
    without the key ["quantity"], the routes [/buy] and [/sell] of both
    variants answer 400 with the body
    [{"error": "Missing required fields: symbol and quantity"}], and the
    state after the request is the state before it: the trader is not
    called and the trace of gateway calls does not grow. *)
Theorem C5_missing_fields (cfg : config) (w : world) (o : gmap string json) :
  o !! "symbol" = None ∨ o !! "quantity" = None →
  let request := Request (Ret (JObj o)) in
  let answer := (error_body "Missing required fields: symbol and quantity", 400) in
  (∀ s, ApiIndex.buy_stock cfg w request s = (Ret answer, s))
  ∧ (∀ s, ApiIndex.sell_stock cfg w request s = (Ret answer, s))
  ∧ (∀ s, App.buy_stock cfg w request s = (Ret answer, s))
  ∧ (∀ s, App.sell_stock cfg w request s = (Ret answer, s)).
Proof.
  intros Hmissing request answer. repeat apply conj.
  - exact (order_route_missing _ _ _ o (ApiIndex_buy_route cfg w) Hmissing).
  - exact (order_route_missing _ _ _ o (ApiIndex_sell_route cfg w) Hmissing).
  - exact (order_route_missing _ _ _ o (App_buy_route cfg w) Hmissing).
  - exact (order_route_missing _ _ _ o (App_sell_route cfg w) Hmissing).
Qed.

(** The body [{"quantity": 5}] has no symbol. *)
Lemma C5_missing_fields_witness :
  let o : gmap string json := {[ "quantity" := JInt 5 ]} in
  let request := Request (Ret (JObj o)) in
  let answer := (error_body "Missing required fields: symbol and quantity", 400) in
  (o !! "symbol" = None ∨ o !! "quantity" = None)
  ∧ (∀ s, ApiIndex.buy_stock cfg0 w_up request s = (Ret answer, s))
  ∧ (∀ s, ApiIndex.sell_stock cfg0 w_up request s = (Ret answer, s))
  ∧ (∀ s, App.buy_stock cfg0 w_up request s = (Ret answer, s))
  ∧ (∀ s, App.sell_stock cfg0 w_up request s = (Ret answer, s)).
Proof.
  intros o request answer.
  assert (H : o !! "symbol" = None ∨ o !! "quantity" = None) by (left; reflexivity).
  split; [exact H|].
  exact (C5_missing_fields cfg0 w_up o H).
Defined.

(** ** C9: the route decides the action *)

Lemma ApiIndex_order_places (cfg : config) (w : world) (symbol action : string)
    (quantity : Z) (s : st ApiIndex.IBKRTrader) :
  Forall (market_order_with (str_upper w action))
    (events_of (ApiIndex.place_market_order cfg w symbol action quantity) s).
Proof.
  destruct s as [[h c] [ss t tr]].
  observe (ApiIndex.place_market_order cfg w symbol action quantity
             (St (ApiIndex.Trader h c) (Gateway ss t tr))).
  run w; finish_run; each_event ltac:(by cbn).
Qed.

Lemma App_order_places (cfg : config) (w : world) (symbol action : string)
    (quantity : Z) (s : st App.IBKRTrader) :
  Forall (market_order_with (str_upper w action))
    (events_of (App.place_market_order cfg w symbol action quantity) s).
Proof.
  destruct s as [[c] [ss t tr]].
  observe (App.place_market_order cfg w symbol action quantity
             (St (App.Trader c) (Gateway ss t tr))).
  run w; finish_run; each_event ltac:(by cbn).
Qed.

Lemma ApiIndex_route_submits (cfg : config) (w : world)
    (route : http_request → M ApiIndex.IBKRTrader response) (action : string)
    (o : gmap string json) (text : string) (v : json) (quantity : Z) :
  order_route w route
    (λ symbol quantity, ApiIndex.place_market_order cfg w symbol action quantity) →
  o !! "symbol" = Some (JStr text) → o !! "quantity" = Some v → py_int w v = Ret quantity →
  long_lived_route_submits w route (Request (Ret (JObj o)))
    (str_upper w text) action quantity.
Proof.
  intros Hroute Hs Hq Hint s.
  destruct (order_route_accepts w _ _ o text v quantity Hroute Hs Hq Hint s)
    as (d & Hd & Hrun).
  apply route_run in Hrun as [Hr He].
  exists d. split; [exact Hr|]. rewrite He, <- Hd.
  apply (ApiIndex_order_protocol cfg w (str_upper w text) action quantity s).
Qed.

Lemma App_route_submits (cfg : config) (w : world)
    (route : http_request → M App.IBKRTrader response) (action : string)
    (o : gmap string json) (text : string) (v : json) (quantity : Z) :
  order_route w route
    (λ symbol quantity, App.place_market_order cfg w symbol action quantity) →
  o !! "symbol" = Some (JStr text) → o !! "quantity" = Some v → py_int w v = Ret quantity →
  per_request_route_submits w route (Request (Ret (JObj o)))
    (str_upper w text) action quantity.
Proof.
  intros Hroute Hs Hq Hint s.
  destruct (order_route_accepts w _ _ o text v quantity Hroute Hs Hq Hint s)
    as (d & Hd & Hrun).
  apply route_run in Hrun as [Hr He].
  exists d. split; [exact Hr|]. rewrite He, <- Hd.
  apply (App_order_protocol cfg w (str_upper w text) action quantity s).
Qed.

(** C9.  In both variants, a body that is an object with a string
    ["symbol"] and a ["quantity"] that [int] reads is answered by [/buy]
    with a submission of the action "BUY" and by [/sell] with a submission
    of the action "SELL", for the symbol in upper case and that integer:
    the route makes the calls of the protocol of a submission, where the
    order that follows a qualification that answered a contract is
    [MarketOrder(action.upper(), quantity)], and answers with the result
    under the status rule.  Whatever the request, every order the route
    [/buy] places is a market order with action "BUY", and every order
    the route [/sell] places is a market order with action "SELL".  Two
    JSON objects that agree on ["symbol"] and on ["quantity"] get the same
    answer and leave the same state: no other key of the body, such as
    ["action"], ["order_type"] or ["price"], is looked at. *)
Theorem C9_action_from_route (cfg : config) (w : world) :
  (∀ request,
     (∀ s, Forall (market_order_with "BUY") (events_of (ApiIndex.buy_stock cfg w request) s))
     ∧ (∀ s, Forall (market_order_with "SELL") (events_of (ApiIndex.sell_stock cfg w request) s))
     ∧ (∀ s, Forall (market_order_with "BUY") (events_of (App.buy_stock cfg w request) s))
     ∧ (∀ s, Forall (market_order_with "SELL") (events_of (App.sell_stock cfg w request) s)))
  ∧ (∀ o o' : gmap string json,
       o !! "symbol" = o' !! "symbol" → o !! "quantity" = o' !! "quantity" →
       let request := Request (Ret (JObj o)) in
       let request' := Request (Ret (JObj o')) in
       same_answer (ApiIndex.buy_stock cfg w) request request'
       ∧ same_answer (ApiIndex.sell_stock cfg w) request request'
       ∧ same_answer (App.buy_stock cfg w) request request'
       ∧ same_answer (App.sell_stock cfg w) request request')
  ∧ (∀ (o : gmap string json) (text : string) (v : json) (quantity : Z),
       o !! "symbol" = Some (JStr text) → o !! "quantity" = Some v →
       py_int w v = Ret quantity →
       let request := Request (Ret (JObj o)) in
       let symbol := str_upper w text in
       long_lived_route_submits w (ApiIndex.buy_stock cfg w) request symbol "BUY" quantity
       ∧ long_lived_route_submits w (ApiIndex.sell_stock cfg w) request symbol "SELL" quantity
       ∧ per_request_route_submits w (App.buy_stock cfg w) request symbol "BUY" quantity
       ∧ per_request_route_submits w (App.sell_stock cfg w) request symbol "SELL" quantity)
  ∧ str_upper w "BUY" = "BUY" ∧ str_upper w "SELL" = "SELL".
Proof.
  split; [|split; [|split; [|split; reflexivity]]].
  - intros request; repeat apply conj; intros s.
    + apply (order_route_events _ _ _ _ (ApiIndex_buy_route cfg w)); intros.
      apply (ApiIndex_order_places cfg w _ "BUY").
    + apply (order_route_events _ _ _ _ (ApiIndex_sell_route cfg w)); intros.
      apply (ApiIndex_order_places cfg w _ "SELL").
    + apply (order_route_events _ _ _ _ (App_buy_route cfg w)); intros.
      apply (App_order_places cfg w _ "BUY").
    + apply (order_route_events _ _ _ _ (App_sell_route cfg w)); intros.
      apply (App_order_places cfg w _ "SELL").
  - intros o o' Hs Hq request request'; repeat apply conj.
    + exact (order_route_same_answer _ _ _ o o' (ApiIndex_buy_route cfg w) Hs Hq).
    + exact (order_route_same_answer _ _ _ o o' (ApiIndex_sell_route cfg w) Hs Hq).
    + exact (order_route_same_answer _ _ _ o o' (App_buy_route cfg w) Hs Hq).
    + exact (order_route_same_answer _ _ _ o o' (App_sell_route cfg w) Hs Hq).
  - intros o text v quantity Hs Hq Hint request symbol.
    split; [|split; [|split]].
    + exact (ApiIndex_route_submits cfg w _ "BUY" o text v quantity
               (ApiIndex_buy_route cfg w) Hs Hq Hint).
    + exact (ApiIndex_route_submits cfg w _ "SELL" o text v quantity
               (ApiIndex_sell_route cfg w) Hs Hq Hint).
    + exact (App_route_submits cfg w _ "BUY" o text v quantity
               (App_buy_route cfg w) Hs Hq Hint).
    + exact (App_route_submits cfg w _ "SELL" o text v quantity
               (App_sell_route cfg w) Hs Hq Hint).
Qed.

(** The sell order of [test_api.py] asks for a limit order at a price,
    to which an ["action"] to buy is added here.  On a reachable gateway
    [/buy] places the market order to buy 1 AAPL and [/sell] the market
    order to sell 1 AAPL, in both variants, and each route answers the
    body as it answers the plain one. *)
Lemma C9_action_witness :
  let plain : gmap string json :=
    list_to_map [("symbol", JStr "AAPL"); ("quantity", JInt 1)] in
  let limit : gmap string json :=
    list_to_map [("symbol", JStr "AAPL"); ("quantity", JInt 1);
                 ("order_type", JStr "LIMIT"); ("price", JFloat (FFinite 200 0));
                 ("action", JStr "BUY")] in
  let request := Request (Ret (JObj limit)) in
  let placed action := [(aapl, MarketOrder action 1, Ret (Trade 7 "PreSubmitted"))] in
  (same_answer (ApiIndex.buy_stock cfg0 w_up) request (Request (Ret (JObj plain)))
   ∧ same_answer (ApiIndex.sell_stock cfg0 w_up) request (Request (Ret (JObj plain)))
   ∧ same_answer (App.buy_stock cfg0 w_up) request (Request (Ret (JObj plain)))
   ∧ same_answer (App.sell_stock cfg0 w_up) request (Request (Ret (JObj plain))))
  ∧ (long_lived_route_submits w_up (ApiIndex.buy_stock cfg0 w_up) request "AAPL" "BUY" 1
     ∧ long_lived_route_submits w_up (ApiIndex.sell_stock cfg0 w_up) request "AAPL" "SELL" 1
     ∧ per_request_route_submits w_up (App.buy_stock cfg0 w_up) request "AAPL" "BUY" 1
     ∧ per_request_route_submits w_up (App.sell_stock cfg0 w_up) request "AAPL" "SELL" 1)
  ∧ placements (events_of (ApiIndex.buy_stock cfg0 w_up request) (ApiIndex.init g0))
    = placed "BUY"
  ∧ placements (events_of (ApiIndex.sell_stock cfg0 w_up request) (ApiIndex.init g0))
    = placed "SELL"
  ∧ placements (events_of (App.buy_stock cfg0 w_up request) (App.init g0))
    = placed "BUY"
  ∧ placements (events_of (App.sell_stock cfg0 w_up request) (App.init g0))
    = placed "SELL".
Proof.
  intros plain limit request placed.
  assert (Hs : limit !! "symbol" = plain !! "symbol") by (vm_compute; reflexivity).
  assert (Hq : limit !! "quantity" = plain !! "quantity") by (vm_compute; reflexivity).
  assert (Hs' : limit !! "symbol" = Some (JStr "AAPL")) by (vm_compute; reflexivity).
  assert (Hq' : limit !! "quantity" = Some (JInt 1)) by (vm_compute; reflexivity).
  pose proof (C9_action_from_route cfg0 w_up) as (_ & Hb & Hc & _).
  split; [exact (Hb limit plain Hs Hq)|].
  split; [exact (Hc limit "AAPL" (JInt 1) 1 Hs' Hq' eq_refl)|].
  conjuncts; vm_compute; reflexivity.
Defined.

(** ** C10: the catch-all handler *)

(** A value that is not a string has no [upper] method. *)
Lemma py_upper_raises (w : world) (v : json) :
  (∃ s, v = JStr s) ∨ (∃ e, py_upper w v = Raise e).
Proof. destruct v; first [by left; eexists | by right; eexists]. Qed.

(** Null, booleans and numbers do not support [in]. *)
Lemma py_in_raises (k : string) (data : json) :
  match data with
  | JNull | JBool _ | JInt _ | JFloat _ => ∃ e, py_in k data = Raise e
  | JStr _ | JArr _ | JObj _ => ∃ b, py_in k data = Ret b
  end.
Proof. destruct data; by eexists. Qed.

(** What [int] does with a quantity: null, arrays, objects, infinities
    and NaN are rejected, other numbers and booleans are read, and ASCII
    text of at most 4300 characters is read when it is a decimal literal
    and rejected with a [ValueError] that shows it when it is not. *)
Lemma py_int_cases (w : world) (v : json) :
  match v with
  | JNull | JArr _ | JObj _ | JFloat (FInf _) | JFloat FNaN => ∃ e, py_int w v = Raise e
  | JInt _ | JBool _ | JFloat (FFinite _ _) => ∃ n, py_int w v = Ret n
  | JStr s =>
      is_ascii s = true → Z.of_nat (String.length s) <= 4300 →
      py_int w v = match int_of_str s with
                   | Some n => Ret n
                   | None => Raise (invalid_literal s)
                   end
  end.
Proof.
  destruct v as [| | |[| |]| | |]; try by eexists.
  intros Hascii Hlen. cbn [py_int]. unfold int_str.
  apply Z.leb_le in Hlen. by rewrite Hascii, Hlen.
Qed.

(** C10, as the code has it.  In both variants the routes [/buy] and
    [/sell] answer 500 with [{"error": <exception message>}], leaving the
    trader and the gateway untouched, when [get_json] raises (no body, or
    not JSON); when the body is null (as every body that is null, a
    boolean or a number, it does not support [in]); when the body is an
    object that has both keys with a symbol that is not a string (it has
    no [upper]); when it has both keys, a string symbol and a quantity
    [int] rejects (null, an array, an object, an infinite number, and text
    that is no integer literal); and when the body is an array or a string
    that contains both names, where the subscript raises.  An array or a
    string that lacks one of the two names is answered with the 400
    validation error. *)
Theorem C10_catch_all (cfg : config) (w : world) :
  (catch_all w (ApiIndex.buy_stock cfg w)
   ∧ catch_all w (ApiIndex.sell_stock cfg w)
   ∧ catch_all w (App.buy_stock cfg w)
   ∧ catch_all w (App.sell_stock cfg w))
  ∧ (∀ v, (∃ s, v = JStr s) ∨ (∃ e, py_upper w v = Raise e))
  ∧ (∀ data,
       match data with
       | JNull | JBool _ | JInt _ | JFloat _ => ∃ e, py_in "symbol" data = Raise e
       | JStr _ | JArr _ | JObj _ => ∃ b, py_in "symbol" data = Ret b
       end)
  ∧ (∀ v,
       match v with
       | JNull | JArr _ | JObj _ | JFloat (FInf _) | JFloat FNaN =>
           ∃ e, py_int w v = Raise e
       | JInt _ | JBool _ | JFloat (FFinite _ _) => ∃ n, py_int w v = Ret n
       | JStr s =>
           is_ascii s = true → Z.of_nat (String.length s) <= 4300 →
           py_int w v = match int_of_str s with
                        | Some n => Ret n
                        | None => Raise (invalid_literal s)
                        end
       end).
Proof.
  split; [|split; [apply py_upper_raises | split; [apply py_in_raises | apply py_int_cases]]].
  split; [|split; [|split]].
  - exact (order_route_catch_all _ _ _ (ApiIndex_buy_route cfg w)).
  - exact (order_route_catch_all _ _ _ (ApiIndex_sell_route cfg w)).
  - exact (order_route_catch_all _ _ _ (App_buy_route cfg w)).
  - exact (order_route_catch_all _ _ _ (App_sell_route cfg w)).
Qed.

(** The quantity "ten" is not an integer literal: [/buy] answers 500 with
    the message of the [ValueError], and calls nothing.  A quantity that
    is null is answered 500 with the message of the [TypeError]. *)
Lemma C10_catch_all_witness :
  let o : gmap string json :=
    list_to_map [("symbol", JStr "aapl"); ("quantity", JStr "ten")] in
  let o' : gmap string json :=
    list_to_map [("symbol", JStr "aapl"); ("quantity", JNull)] in
  let e := ValueError "invalid literal for int() with base 10: 'ten'" in
  let e' := TypeError "int() argument must be a string, a bytes-like object or a real number, not 'NoneType'" in
  answers_500 (ApiIndex.buy_stock cfg0 w_up) (Request (Ret (JObj o))) e
  ∧ answers_500 (App.buy_stock cfg0 w_up) (Request (Ret (JObj o))) e
  ∧ answers_500 (ApiIndex.sell_stock cfg0 w_up) (Request (Ret (JObj o'))) e'
  ∧ answers_500 (App.sell_stock cfg0 w_up) (Request (Ret (JObj o'))) e'.
Proof.
  intros o o' e e'.
  pose proof (C10_catch_all cfg0 w_up) as [(H1 & H2 & H3 & H4) _].
  split; [|split; [|split]].
  - exact (proj1 (proj2 (proj2 (proj2 H1))) o (JStr "aapl") (JStr "ten") "AAPL" e
             eq_refl eq_refl eq_refl eq_refl).
  - exact (proj1 (proj2 (proj2 (proj2 H3))) o (JStr "aapl") (JStr "ten") "AAPL" e
             eq_refl eq_refl eq_refl eq_refl).
  - exact (proj1 (proj2 (proj2 (proj2 H2))) o' (JStr "aapl") JNull "AAPL" e'
             eq_refl eq_refl eq_refl eq_refl).
  - exact (proj1 (proj2 (proj2 (proj2 H4))) o' (JStr "aapl") JNull "AAPL" e'
             eq_refl eq_refl eq_refl eq_refl).
Defined.

(** C10 as stated fails on the code: an empty JSON array and the JSON
    string "hello" are bodies that are not objects, and they are answered
    with the 400 validation error, not with a 500. *)
Lemma C10_array_body_gets_400 :
  let answer := (error_body "Missing required fields: symbol and quantity", 400) in
  App.buy_stock cfg0 w_up (Request (Ret (JArr []))) (App.init g0)
  = (Ret answer, App.init g0)
  ∧ ApiIndex.sell_stock cfg0 w_up (Request (Ret (JStr "hello"))) (ApiIndex.init g0)
    = (Ret answer, ApiIndex.init g0).
Proof. conjuncts; evaluate. Qed.

(** * Further properties of the code *)

(** ** [connect] *)

(** X1.  The long-lived [connect] always returns a boolean (no exception
    escapes) which is also the value it leaves in the cached flag, and
    which says whether the client of the trader holds a live session when
    it returns.  It performs at most one handshake, only calls the client
    of the trader, and never disconnects it. *)
Theorem long_lived_connect_reports_session (cfg : config) (w : world)
    (s : st ApiIndex.IBKRTrader) :
  let run := ApiIndex.connect cfg w in
  ∃ ok : bool,
    result_of run s = Ret ok
    ∧ ApiIndex.connected (self (state_after run s)) = ok
    ∧ is_live (ApiIndex.ib (self s)) (gw (state_after run s)) = ok
    ∧ ApiIndex.ib (self (state_after run s)) = ApiIndex.ib (self s)
    ∧ (count is_handshake (events_of run s) ≤ 1)%nat
    ∧ forallb (keeps_client (ApiIndex.ib (self s))) (events_of run s) = true.
Proof.
  destruct s as [[h c] [ss t tr]]; intros run.
  observe (run (St (ApiIndex.Trader h c) (Gateway ss t tr))); subst run.
  run_exact w; finish_run; eexists; (split; [reflexivity|]);
    unfold is_live; cbn [self gw sessions snd ApiIndex.ib ApiIndex.connected];
    rewrite ?dead_after_drop;
    (split; [reflexivity|]); (split; [first [assumption | reflexivity]|]);
    (split; [reflexivity|]);
    (split; [cbn; lia | cbn; rewrite ?bool_decide_eq_true_2 by reflexivity; reflexivity]).
Qed.

(** X2.  The per-request [connect] always returns: either the client it
    has just created, which then holds a live session, with the flag set,
    or [None], with the flag cleared and the new client without a session.
    Each call creates exactly one client and performs exactly one
    handshake, on that client, whatever the state before. *)
Theorem per_request_connect_returns_fresh_client (cfg : config) (w : world)
    (s : st App.IBKRTrader) :
  let run := App.connect cfg w in
  let h := length (sessions (gw s)) in
  ∃ ok : bool,
    result_of run s = Ret (if ok then Some h else None)
    ∧ App.connected (self (state_after run s)) = ok
    ∧ sessions (gw (state_after run s)) = sessions (gw s) ++ [ok]
    ∧ count is_handshake (events_of run s) = 1%nat
    ∧ head (events_of run s) = Some (EvIB h).
Proof.
  destruct s as [[c] [ss t tr]]; intros run h; subst h.
  observe (run (St (App.Trader c) (Gateway ss t tr))); subst run.
  run_exact w; finish_run;
    first [exists true; repeat split; reflexivity | exists false; repeat split; reflexivity].
Qed.

(** ** [test_connection] *)

(** X3.  The long-lived [test_connection] decides by the cached flag
    alone: it never asks [isConnected], and it performs a handshake
    exactly when the flag is false, whatever the state of the session.
    The flag it leaves says whether the report is a success, and a
    success report carries the accounts the gateway answered. *)
Theorem long_lived_test_connection_follows_flag (cfg : config) (w : world)
    (s : st ApiIndex.IBKRTrader) :
  let run := ApiIndex.test_connection cfg w in
  existsb is_liveness_check (events_of run s) = false
  ∧ existsb is_handshake (events_of run s) = negb (ApiIndex.connected (self s))
  ∧ (count is_handshake (events_of run s) ≤ 1)%nat
  ∧ (count is_accounts_query (events_of run s) ≤ 1)%nat
  ∧ forallb (keeps_client (ApiIndex.ib (self s))) (events_of run s) = true
  ∧ match accounts_answered (events_of run s) with
    | Some accounts =>
        result_of run s = Ret (connection_report cfg accounts)
        ∧ ApiIndex.connected (self (state_after run s)) = true
    | None =>
        result_of run s = Ret {[ "success" := JBool false ]}
        ∧ ApiIndex.connected (self (state_after run s)) = false
    end.
Proof.
  destruct s as [[h c] [ss t tr]]; intros run.
  observe (run (St (ApiIndex.Trader h c) (Gateway ss t tr))); subst run.
  destruct c; run w; finish_run; cbn [self ApiIndex.connected ApiIndex.ib negb];
    (split; [reflexivity|]); (split; [reflexivity|]);
    (split; [cbn; lia|]); (split; [cbn; lia|]);
    (split; [cbn; rewrite ?bool_decide_eq_true_2 by reflexivity; reflexivity|]);
    split; reflexivity.
Qed.

(** X4.  The per-request [test_connection] leaves the cached flag equal
    to the success of its report while the client it used holds no
    session any more: after a success the flag says "connected" and
    nothing is connected.  A success report carries the accounts the
    gateway answered; the operation asks for them at most once and only
    after the liveness check of [connect] succeeded. *)
Theorem per_request_test_connection_flag (cfg : config) (w : world)
    (s : st App.IBKRTrader) :
  let run := App.test_connection cfg w in
  let h := length (sessions (gw s)) in
  is_live h (gw (state_after run s)) = false
  ∧ (count is_handshake (events_of run s) = 1)%nat
  ∧ (count is_accounts_query (events_of run s) ≤ 1)%nat
  ∧ match accounts_answered (events_of run s) with
    | Some accounts =>
        result_of run s = Ret (connection_report cfg accounts)
        ∧ App.connected (self (state_after run s)) = true
    | None =>
        field "success" (result_of run s) = Some (JBool false)
        ∧ App.connected (self (state_after run s)) = false
    end.
Proof.
  destruct s as [[c] [ss t tr]]; intros run h; subst h.
  observe (run (St (App.Trader c) (Gateway ss t tr))); subst run.
  run_exact w; finish_run; unfold is_live; cbn [self gw sessions snd App.connected];
    rewrite ?lookup_fresh;
    (split; [reflexivity|]); (split; [reflexivity|]); (split; [cbn; lia|]);
    split; reflexivity.
Qed.

(** ** [place_market_order] *)

(** X5.  In both variants a submission performs at most one handshake,
    one qualification and one [placeOrder] (nothing is retried).  The
    order is [MarketOrder(action.upper(), quantity)] on the first contract
    the qualification answered; the result dict carries the order id and
    the status of the trade, the symbol, the quantity and the action as
    it was passed (not in upper case); when [placeOrder] raises, the
    result is the message of the exception.  A run that places no order
    never reports success. *)
Theorem submission_anatomy (cfg : config) (w : world) (symbol action : string)
    (quantity : Z) :
  (∀ s : st ApiIndex.IBKRTrader,
     let run := ApiIndex.place_market_order cfg w symbol action quantity in
     order_anatomy w symbol action quantity (events_of run s) (result_of run s))
  ∧ (∀ s : st App.IBKRTrader,
       let run := App.place_market_order cfg w symbol action quantity in
       order_anatomy w symbol action quantity (events_of run s) (result_of run s)).
Proof.
  split.
  - intros [[h c] [ss t tr]] run.
    observe (run (St (ApiIndex.Trader h c) (Gateway ss t tr))); subst run.
    run w; finish_run; (split; [cbn; lia|]); (split; [cbn; lia|]);
      cbn [placements]; first [reflexivity | repeat split; reflexivity].
  - intros [[c] [ss t tr]] run.
    observe (run (St (App.Trader c) (Gateway ss t tr))); subst run.
    run w; finish_run; (split; [cbn; lia|]); (split; [cbn; lia|]);
      cbn [placements]; first [reflexivity | repeat split; reflexivity].
Qed.

(** X6.  The long-lived [place_market_order] performs a handshake exactly
    when its first liveness check finds no session: a live session is
    reused, a lost one is re-opened, whatever the cached flag.  It only
    calls the client of the trader, and never disconnects it. *)
Theorem long_lived_submission_reconnects_when_needed (cfg : config) (w : world)
    (symbol action : string) (quantity : Z) (s : st ApiIndex.IBKRTrader) :
  let run := ApiIndex.place_market_order cfg w symbol action quantity in
  ∃ live : bool,
    head (events_of run s) = Some (EvIsConnected (ApiIndex.ib (self s)) live)
    ∧ existsb is_handshake (events_of run s) = negb live
    ∧ forallb (keeps_client (ApiIndex.ib (self s))) (events_of run s) = true
    ∧ ApiIndex.ib (self (state_after run s)) = ApiIndex.ib (self s).
Proof.
  destruct s as [[h c] [ss t tr]]; intros run.
  observe (run (St (ApiIndex.Trader h c) (Gateway ss t tr))); subst run.
  run_exact w; finish_run; eexists; (split; [reflexivity|]);
    (split; [reflexivity|]);
    (split; [cbn; rewrite ?bool_decide_eq_true_2 by reflexivity; reflexivity|]);
    reflexivity.
Qed.

(** X7.  After a per-request submission the client that was created
    holds no session, and the cached flag is true exactly when [connect]
    succeeded and no call raised afterwards: after a successful order the
    flag says "connected" and nothing is connected. *)
Theorem per_request_submission_flag (cfg : config) (w : world)
    (symbol action : string) (quantity : Z) (s : st App.IBKRTrader) :
  let run := App.place_market_order cfg w symbol action quantity in
  is_live (length (sessions (gw s))) (gw (state_after run s)) = false
  ∧ App.connected (self (state_after run s))
    = match first_check (events_of run s) with
      | Some true => negb (existsb raised (events_of run s))
      | _ => false
      end
  ∧ (field "success" (result_of run s) = Some (JBool true) →
     App.connected (self (state_after run s)) = true).
Proof.
  destruct s as [[c] [ss t tr]]; intros run.
  observe (run (St (App.Trader c) (Gateway ss t tr))); subst run.
  run_exact w; finish_run; unfold is_live; cbn [self gw sessions snd App.connected];
    rewrite ?lookup_fresh; (split; [reflexivity|]); (split; [reflexivity|]);
    intros H; first [reflexivity | vm_compute in H; discriminate H].
Qed.

(** A successful order on a reachable gateway: the flag stays set, the
    session is closed. *)
Lemma per_request_submission_flag_witness :
  let run := App.place_market_order cfg0 w_up "AAPL" "BUY" 5 in
  field "success" (result_of run (App.init g0)) = Some (JBool true)
  ∧ App.connected (self (state_after run (App.init g0))) = true
  ∧ is_live 0 (gw (state_after run (App.init g0))) = false.
Proof.
  intros run.
  assert (H : field "success" (result_of run (App.init g0)) = Some (JBool true))
    by (vm_compute; reflexivity).
  pose proof (per_request_submission_flag cfg0 w_up "AAPL" "BUY" 5 (App.init g0))
    as (H1 & _ & H3).
  split; [exact H|]. split; [exact (H3 H) | exact H1].
Defined.

(** ** [disconnect] *)

Lemma long_lived_disconnect_when_cleared (w : world) (g : gateway) (h : handle) :
  ApiIndex.disconnect w (St (ApiIndex.Trader h false) g)
  = (Ret tt, St (ApiIndex.Trader h false) g).
Proof. reflexivity. Qed.

Lemma connect_sets_flag (cfg : config) (w : world) (s : st ApiIndex.IBKRTrader) :
  result_of (ApiIndex.connect cfg w) s = Ret true →
  ApiIndex.connected (self (state_after (ApiIndex.connect cfg w) s)) = true.
Proof.
  destruct s as [[h c] [ss t tr]].
  observe (ApiIndex.connect cfg w (St (ApiIndex.Trader h c) (Gateway ss t tr))).
  run w; intros [= <- <-] Hok; first [discriminate Hok | reflexivity].
Qed.

(** [disconnect] on a trader whose flag is set and whose client holds a
    session. *)
Lemma long_lived_disconnect_when_set (w : world) (g : gateway) (h : handle) :
  is_live h g = true →
  let s := St (ApiIndex.Trader h true) g in
  events_of (ApiIndex.disconnect w) s = [EvDisconnect h]
  ∧ match w_disconnect w (clock g) with
    | None =>
        result_of (ApiIndex.disconnect w) s = Ret tt
        ∧ is_live h (gw (state_after (ApiIndex.disconnect w) s)) = false
        ∧ ApiIndex.connected (self (state_after (ApiIndex.disconnect w) s)) = false
    | Some (e, _) =>
        result_of (ApiIndex.disconnect w) s = Raise e
        ∧ ApiIndex.connected (self (state_after (ApiIndex.disconnect w) s)) = true
    end.
Proof.
  destruct g as [ss t tr]; intros Hlive s; subst s; unfold is_live in Hlive;
    cbn [sessions clock] in *.
  observe (ApiIndex.disconnect w (St (ApiIndex.Trader h true) (Gateway ss t tr))).
  unfold_service; rewrite Hlive; unfold_service.
  destruct (w_disconnect w t) as [[e live]|]; unfold_service; intros [= <- <-];
    rewrite ?events_app; unfold is_live; cbn [self gw sessions ApiIndex.connected];
    rewrite ?dead_after_drop; conjuncts; reflexivity.
Qed.

(** X8.  The long-lived [disconnect] trusts the cached flag.  After a
    [connect] that succeeded it calls [disconnect] on the client of the
    trader, and nothing else; when that call completes the session is
    closed and the flag cleared; when it raises, as it may under an event
    loop of its own, the exception leaves [disconnect] and the flag stays
    set.  After a submission in which a call raised, the flag is already
    cleared, and [disconnect] does nothing at all: no call on the client
    library, so a session that is still live stays open. *)
Theorem long_lived_disconnect_follows_flag (cfg : config) (w : world)
    (symbol action : string) (quantity : Z) (s : st ApiIndex.IBKRTrader) :
  (let s1 := state_after (ApiIndex.connect cfg w) s in
   let disconnect := ApiIndex.disconnect w in
   result_of (ApiIndex.connect cfg w) s = Ret true →
   events_of disconnect s1 = [EvDisconnect (ApiIndex.ib (self s))]
   ∧ match w_disconnect w (clock (gw s1)) with
     | None =>
         result_of disconnect s1 = Ret tt
         ∧ is_live (ApiIndex.ib (self s)) (gw (state_after disconnect s1)) = false
         ∧ ApiIndex.connected (self (state_after disconnect s1)) = false
     | Some (e, _) =>
         result_of disconnect s1 = Raise e
         ∧ ApiIndex.connected (self (state_after disconnect s1)) = true
     end)
  ∧ (let run := ApiIndex.place_market_order cfg w symbol action quantity in
     existsb raised (events_of run s) = true →
     ApiIndex.disconnect w (state_after run s) = (Ret tt, state_after run s)).
Proof.
  split.
  - intros s1 disconnect Hok. subst disconnect.
    destruct (ApiIndex_connect_leaves_live cfg w s Hok) as [Hlive Hib].
    pose proof (connect_sets_flag cfg w s Hok) as Hflag.
    fold s1 in Hlive, Hib, Hflag.
    destruct s1 as [[h c] g]. cbn [self gw ApiIndex.ib ApiIndex.connected] in *.
    subst h c. exact (long_lived_disconnect_when_set w g _ Hlive).
  - intros run Hraised.
    destruct (ApiIndex_order_catches cfg w symbol action quantity s) as [_ Hall].
    fold run in Hall.
    apply existsb_exists in Hraised as (e & He & Hx).
    unfold raised in Hx. apply bool_decide_eq_true_1 in Hx as [x Hx].
    destruct (proj1 (List.Forall_forall _ _) Hall e He x Hx) as [_ Hflag].
    destruct (state_after run s) as [[h c] g]. cbn [self ApiIndex.connected] in Hflag.
    subst c. apply long_lived_disconnect_when_cleared.
Qed.

(** The gateway rejects the order: the session is still live after the
    submission, and it is still live after [disconnect].  Where every
    coroutine runs under an event loop of its own, [disconnect] after a
    [connect] that succeeded raises, and the flag stays set. *)
Lemma long_lived_disconnect_witness :
  let run := ApiIndex.place_market_order cfg0 w_rejects "AAPL" "BUY" 5 in
  let s1 := state_after run (ApiIndex.init g0) in
  let s2 := state_after (ApiIndex.connect cfg0 w_loops) (ApiIndex.init g0) in
  (existsb raised (events_of run (ApiIndex.init g0)) = true
   ∧ ApiIndex.disconnect w_rejects s1 = (Ret tt, s1)
   ∧ is_live 0 (gw s1) = true
   ∧ is_live 0 (gw (state_after (ApiIndex.disconnect w_rejects) s1)) = true)
  ∧ (result_of (ApiIndex.connect cfg0 w_loops) (ApiIndex.init g0) = Ret true
     ∧ events_of (ApiIndex.disconnect w_loops) s2 = [EvDisconnect 0]
     ∧ result_of (ApiIndex.disconnect w_loops) s2
       = Raise (Exception "RuntimeError" "Event loop is closed")
     ∧ ApiIndex.connected (self (state_after (ApiIndex.disconnect w_loops) s2)) = true).
Proof.
  intros run s1 s2.
  assert (H : existsb raised (events_of run (ApiIndex.init g0)) = true)
    by (vm_compute; reflexivity).
  assert (Hok : result_of (ApiIndex.connect cfg0 w_loops) (ApiIndex.init g0) = Ret true)
    by (vm_compute; reflexivity).
  pose proof (long_lived_disconnect_follows_flag cfg0 w_rejects "AAPL" "BUY" 5
                (ApiIndex.init g0)) as [_ Hd].
  pose proof (long_lived_disconnect_follows_flag cfg0 w_loops "AAPL" "BUY" 5
                (ApiIndex.init g0)) as [Hc _].
  split.
  - split; [exact H|]. split; [exact (Hd H)|]. split; vm_compute; reflexivity.
  - split; [exact Hok|]. exact (Hc Hok).
Defined.

(** ** The order routes, on a body they accept *)

(** X9.  When the body is an object whose ["symbol"] is a string and
    whose ["quantity"] [int] accepts, the routes [/buy] and [/sell] of
    both variants submit [symbol.upper()] with the integer [int] returns,
    and answer with the result of that submission under the status rule.
    Nothing else is checked: the symbol may be empty, and the quantity
    may be zero or negative.  On ASCII text the symbol submitted is the
    text with its letters a to z in upper case, and a quantity given as
    ASCII text of at most 4300 characters is submitted when it is a
    decimal literal. *)
Theorem order_routes_normalise (cfg : config) (w : world) (o : gmap string json)
    (text : string) (v : json) (quantity : Z) :
  o !! "symbol" = Some (JStr text) → o !! "quantity" = Some v → py_int w v = Ret quantity →
  let request := Request (Ret (JObj o)) in
  let symbol := str_upper w text in
  ((∀ s, ∃ d,
      result_of (ApiIndex.place_market_order cfg w symbol "BUY" quantity) s = Ret d
      ∧ ApiIndex.buy_stock cfg w request s
        = (Ret (status_rule d),
           state_after (ApiIndex.place_market_order cfg w symbol "BUY" quantity) s))
   ∧ (∀ s, ∃ d,
        result_of (ApiIndex.place_market_order cfg w symbol "SELL" quantity) s = Ret d
        ∧ ApiIndex.sell_stock cfg w request s
          = (Ret (status_rule d),
             state_after (ApiIndex.place_market_order cfg w symbol "SELL" quantity) s))
   ∧ (∀ s, ∃ d,
        result_of (App.place_market_order cfg w symbol "BUY" quantity) s = Ret d
        ∧ App.buy_stock cfg w request s
          = (Ret (status_rule d),
             state_after (App.place_market_order cfg w symbol "BUY" quantity) s))
   ∧ (∀ s, ∃ d,
        result_of (App.place_market_order cfg w symbol "SELL" quantity) s = Ret d
        ∧ App.sell_stock cfg w request s
          = (Ret (status_rule d),
             state_after (App.place_market_order cfg w symbol "SELL" quantity) s)))
  ∧ (is_ascii text = true → symbol = upper text)
  ∧ (∀ literal, v = JStr literal → is_ascii literal = true →
       Z.of_nat (String.length literal) <= 4300 →
       int_of_str literal = Some quantity).
Proof.
  intros Hs Hq Hint request symbol. split; [repeat apply conj|split].
  - exact (order_route_accepts _ _ _ o text v quantity (ApiIndex_buy_route cfg w) Hs Hq Hint).
  - exact (order_route_accepts _ _ _ o text v quantity (ApiIndex_sell_route cfg w) Hs Hq Hint).
  - exact (order_route_accepts _ _ _ o text v quantity (App_buy_route cfg w) Hs Hq Hint).
  - exact (order_route_accepts _ _ _ o text v quantity (App_sell_route cfg w) Hs Hq Hint).
  - intros Hascii. subst symbol. unfold str_upper. by rewrite Hascii.
  - intros literal -> Hascii Hlen. cbn [py_int] in Hint. unfold int_str in Hint.
    rewrite Hascii in Hint. apply Z.leb_le in Hlen. rewrite Hlen in Hint.
    cbn [andb] in Hint. destruct (int_of_str literal); congruence.
Qed.

(** The body [{"symbol": "aapl", "quantity": " -3 "}]: the order placed
    by [/sell] is a market order to sell -3 of AAPL. *)
Lemma order_routes_normalise_witness :
  let o : gmap string json :=
    list_to_map [("symbol", JStr "aapl"); ("quantity", JStr " -3 ")] in
  let request := Request (Ret (JObj o)) in
  (∃ d,
     result_of (App.place_market_order cfg0 w_up "AAPL" "SELL" (-3)) (App.init g0) = Ret d
     ∧ App.sell_stock cfg0 w_up request (App.init g0)
       = (Ret (status_rule d),
          state_after (App.place_market_order cfg0 w_up "AAPL" "SELL" (-3)) (App.init g0)))
  ∧ placements (events_of (App.sell_stock cfg0 w_up request) (App.init g0))
    = [(aapl, MarketOrder "SELL" (-3), Ret (Trade 7 "PreSubmitted"))].
Proof.
  intros o request.
  pose proof (order_routes_normalise cfg0 w_up o "aapl" (JStr " -3 ") (-3)
                eq_refl eq_refl eq_refl) as [(_ & _ & _ & H4) _].
  split; [exact (H4 (App.init g0))|].
  vm_compute; reflexivity.
Defined.

(** ** The URL map *)




(** ** The test script *)

Lemma ApiIndex_info_tests (cfg : config) (w : world) (s : st ApiIndex.IBKRTrader) :
  TestApi.test_status (ApiIndex.serve cfg w) s = (Ret true, s)
  ∧ TestApi.test_home (ApiIndex.serve cfg w) s = (Ret true, s)
  ∧ TestApi.test_account (ApiIndex.serve cfg w) s = (Ret false, s).
Proof. destruct s as [[h c] g]. repeat split; reflexivity. Qed.

Lemma App_info_tests (cfg : config) (w : world) (environ : environment)
    (loop_time : outcome string) (s : st App.IBKRTrader) :
  let server := App.serve cfg w environ loop_time in
  TestApi.test_status server s = (Ret true, s)
  ∧ TestApi.test_home server s = (Ret true, s)
  ∧ TestApi.test_account server s = (Ret false, s).
Proof. destruct s as [[c] g]. repeat split; reflexivity. Qed.

Lemma attempt_json {T} (server : http_method → string → http_request → M T reply)
    (method : http_method) (path : string) (request : http_request)
    (s s' : st T) (x : response) :
  server method path request s = (Ret (Json x), s') →
  TestApi.attempt server method path request s = (Ret (bool_decide (snd x = 200)), s').
Proof.
  intros H. unfold TestApi.attempt, try_except, mbind, M_bind, mret, M_ret, pure.
  rewrite H. by destruct x.
Qed.

Lemma route_post {T} (view : M T response) (s s' : st T) (x : response) :
  view s = (Ret x, s') → route POST POST view s = (Ret (Json x), s').
Proof. intros H. unfold route. by rewrite H. Qed.

Lemma status_rule_200 (d : pydict) :
  bool_decide (snd (status_rule d) = 200) = bool_decide (d !! "error" = None).
Proof.
  unfold status_rule; cbn [snd].
  destruct (d !! "error") as [v|]; reflexivity.
Qed.

(** What a test that posts an order answers, given what the route does
    with the body. *)
Lemma order_test_verdict {T} (w : world)
    (server : http_method → string → http_request → M T reply)
    (path : string) (view : http_request → M T response)
    (submit : string → Z → M T pydict) (o : gmap string json)
    (text : string) (v : json) (quantity : Z) (s : st T) :
  (∀ s, server POST path (Request (Ret (JObj o))) s
        = route POST POST (view (Request (Ret (JObj o)))) s) →
  order_route w view submit →
  o !! "symbol" = Some (JStr text) → o !! "quantity" = Some v → py_int w v = Ret quantity →
  ∃ d, result_of (submit (str_upper w text) quantity) s = Ret d
       ∧ TestApi.attempt server POST path (Request (Ret (JObj o))) s
         = (Ret (bool_decide (d !! "error" = None)),
            state_after (submit (str_upper w text) quantity) s).
Proof.
  intros Hserve Hroute Hs Hq Hint.
  destruct (order_route_accepts w view submit o text v quantity Hroute Hs Hq Hint s)
    as (d & Hd & Hview).
  exists d; split; [exact Hd|].
  rewrite <- status_rule_200. apply attempt_json.
  rewrite Hserve. by apply route_post.
Qed.

Lemma ApiIndex_order_tests (cfg : config) (w : world) (s : st ApiIndex.IBKRTrader) :
  (∃ d,
     result_of (ApiIndex.place_market_order cfg w "AAPL" "BUY" 1) s = Ret d
     ∧ TestApi.test_buy_order (ApiIndex.serve cfg w) s
       = (Ret (bool_decide (d !! "error" = None)),
          state_after (ApiIndex.place_market_order cfg w "AAPL" "BUY" 1) s))
  ∧ (∃ d,
       result_of (ApiIndex.place_market_order cfg w "AAPL" "SELL" 1) s = Ret d
       ∧ TestApi.test_sell_order (ApiIndex.serve cfg w) s
         = (Ret (bool_decide (d !! "error" = None)),
            state_after (ApiIndex.place_market_order cfg w "AAPL" "SELL" 1) s)).
Proof.
  split.
  - apply (order_test_verdict w _ "/buy" _ _ _ "AAPL" (JInt 1) 1 s
             (λ _, eq_refl) (ApiIndex_buy_route cfg w)); reflexivity.
  - apply (order_test_verdict w _ "/sell" _ _ _ "AAPL" (JInt 1) 1 s
             (λ _, eq_refl) (ApiIndex_sell_route cfg w)); reflexivity.
Qed.

Lemma App_order_tests (cfg : config) (w : world) (environ : environment)
    (loop_time : outcome string) (s : st App.IBKRTrader) :
  (∃ d,
     result_of (App.place_market_order cfg w "AAPL" "BUY" 1) s = Ret d
     ∧ TestApi.test_buy_order (App.serve cfg w environ loop_time) s
       = (Ret (bool_decide (d !! "error" = None)),
          state_after (App.place_market_order cfg w "AAPL" "BUY" 1) s))
  ∧ (∃ d,
       result_of (App.place_market_order cfg w "AAPL" "SELL" 1) s = Ret d
       ∧ TestApi.test_sell_order (App.serve cfg w environ loop_time) s
         = (Ret (bool_decide (d !! "error" = None)),
            state_after (App.place_market_order cfg w "AAPL" "SELL" 1) s)).
Proof.
  split.
  - apply (order_test_verdict w _ "/buy" _ _ _ "AAPL" (JInt 1) 1 s
             (λ _, eq_refl) (App_buy_route cfg w)); reflexivity.
  - apply (order_test_verdict w _ "/sell" _ _ _ "AAPL" (JInt 1) 1 s
             (λ _, eq_refl) (App_sell_route cfg w)); reflexivity.
Qed.

(** X12.  What the order tests of the script answer, against either
    application: [test_buy_order] passes exactly when the submission of a
    market order to buy 1 AAPL returns no error, and [test_sell_order]
    exactly when the submission of a market order to sell 1 AAPL returns
    no error; the ["order_type": "LIMIT"] and the ["price"] of its body
    change nothing.  The tests leave the application in the state the
    submission leaves. *)
Theorem order_tests_verdicts (cfg : config) (w : world) (environ : environment)
    (loop_time : outcome string) :
  (∀ s, ∃ d,
     result_of (ApiIndex.place_market_order cfg w "AAPL" "BUY" 1) s = Ret d
     ∧ TestApi.test_buy_order (ApiIndex.serve cfg w) s
       = (Ret (bool_decide (d !! "error" = None)),
          state_after (ApiIndex.place_market_order cfg w "AAPL" "BUY" 1) s))
  ∧ (∀ s, ∃ d,
       result_of (ApiIndex.place_market_order cfg w "AAPL" "SELL" 1) s = Ret d
       ∧ TestApi.test_sell_order (ApiIndex.serve cfg w) s
         = (Ret (bool_decide (d !! "error" = None)),
            state_after (ApiIndex.place_market_order cfg w "AAPL" "SELL" 1) s))
  ∧ (∀ s, ∃ d,
       result_of (App.place_market_order cfg w "AAPL" "BUY" 1) s = Ret d
       ∧ TestApi.test_buy_order (App.serve cfg w environ loop_time) s
         = (Ret (bool_decide (d !! "error" = None)),
            state_after (App.place_market_order cfg w "AAPL" "BUY" 1) s))
  ∧ (∀ s, ∃ d,
       result_of (App.place_market_order cfg w "AAPL" "SELL" 1) s = Ret d
       ∧ TestApi.test_sell_order (App.serve cfg w environ loop_time) s
         = (Ret (bool_decide (d !! "error" = None)),
            state_after (App.place_market_order cfg w "AAPL" "SELL" 1) s)).
Proof.
  repeat apply conj; intros s.
  - exact (proj1 (ApiIndex_order_tests cfg w s)).
  - exact (proj2 (ApiIndex_order_tests cfg w s)).
  - exact (proj1 (App_order_tests cfg w environ loop_time s)).
  - exact (proj2 (App_order_tests cfg w environ loop_time s)).
Qed.

Lemma main_summary {T} (server : http_method → string → http_request → M T reply)
    (test_trading : bool) (s : st T) :
  TestApi.test_status server s = (Ret true, s) →
  TestApi.test_home server s = (Ret true, s) →
  TestApi.test_account server s = (Ret false, s) →
  (∀ s, ∃ b, result_of (TestApi.test_buy_order server) s = Ret b) →
  (∀ s, ∃ b, result_of (TestApi.test_sell_order server) s = Ret b) →
  ∃ sm,
    result_of (TestApi.main server test_trading) s = Ret sm
    ∧ verdict "Status" (TestApi.results sm) = Some true
    ∧ verdict "Home" (TestApi.results sm) = Some true
    ∧ verdict "Account" (TestApi.results sm) = Some false
    ∧ TestApi.total sm = (if test_trading then 5 else 3)%nat
    ∧ (2 ≤ TestApi.passed sm < TestApi.total sm)%nat
    ∧ TestApi.all_passed sm = false.
Proof.
  intros H1 H2 H3 Hbuy Hsell.
  unfold result_of, TestApi.main; destruct test_trading; cbn [app TestApi.run_tests];
    unfold mbind, M_bind, mret, M_ret; rewrite H1, H2, H3.
  - destruct (Hbuy s) as [b1 Hb1]. unfold result_of in Hb1.
    destruct (TestApi.test_buy_order server s) as [r1 s1]. cbn [fst] in Hb1; subst r1.
    destruct (Hsell s1) as [b2 Hb2]. unfold result_of in Hb2.
    destruct (TestApi.test_sell_order server s1) as [r2 s2]. cbn [fst] in Hb2; subst r2.
    eexists; split; [reflexivity|].
    destruct b1, b2; repeat split; cbn; lia.
  - eexists; split; [reflexivity|]. repeat split; cbn; lia.
Qed.

(** X13.  Against either application the test script never announces
    "All tests passed!": its account test requests [/account], for which
    no application has a rule, so it fails whatever the gateway does,
    while the status and home tests always pass.  The count of passed
    tests is at least 2 and below the total, which is 3, or 5 when the
    order tests are run. *)
Theorem test_script_never_all_passed (cfg : config) (w : world)
    (environ : environment) (loop_time : outcome string) (test_trading : bool) :
  (∀ s, ∃ sm,
     result_of (TestApi.main (ApiIndex.serve cfg w) test_trading) s = Ret sm
     ∧ verdict "Status" (TestApi.results sm) = Some true
     ∧ verdict "Home" (TestApi.results sm) = Some true
     ∧ verdict "Account" (TestApi.results sm) = Some false
     ∧ TestApi.total sm = (if test_trading then 5 else 3)%nat
     ∧ (2 ≤ TestApi.passed sm < TestApi.total sm)%nat
     ∧ TestApi.all_passed sm = false)
  ∧ (∀ s, ∃ sm,
       result_of (TestApi.main (App.serve cfg w environ loop_time) test_trading) s = Ret sm
       ∧ verdict "Status" (TestApi.results sm) = Some true
       ∧ verdict "Home" (TestApi.results sm) = Some true
       ∧ verdict "Account" (TestApi.results sm) = Some false
       ∧ TestApi.total sm = (if test_trading then 5 else 3)%nat
       ∧ (2 ≤ TestApi.passed sm < TestApi.total sm)%nat
       ∧ TestApi.all_passed sm = false).
Proof.
  split; intros s.
  - destruct (ApiIndex_info_tests cfg w s) as (H1 & H2 & H3).
    apply main_summary; try assumption; intros s'.
    + destruct (proj1 (ApiIndex_order_tests cfg w s')) as (d & _ & Hd).
      eexists. unfold result_of. by rewrite Hd.
    + destruct (proj2 (ApiIndex_order_tests cfg w s')) as (d & _ & Hd).
      eexists. unfold result_of. by rewrite Hd.
  - destruct (App_info_tests cfg w environ loop_time s) as (H1 & H2 & H3).
    apply main_summary; try assumption; intros s'.
    + destruct (proj1 (App_order_tests cfg w environ loop_time s')) as (d & _ & Hd).
      eexists. unfold result_of. by rewrite Hd.
    + destruct (proj2 (App_order_tests cfg w environ loop_time s')) as (d & _ & Hd).
      eexists. unfold result_of. by rewrite Hd.
Qed.

(** ** Every handshake is with the configured gateway *)

Lemma ApiIndex_handshakes (cfg : config) (w : world) (symbol action : string)
    (quantity : Z) (s : st ApiIndex.IBKRTrader) :
  Forall (targets cfg) (events_of (ApiIndex.connect cfg w) s)
  ∧ Forall (targets cfg) (events_of (ApiIndex.test_connection cfg w) s)
  ∧ Forall (targets cfg)
      (events_of (ApiIndex.place_market_order cfg w symbol action quantity) s).
Proof.
  destruct s as [[h c] [ss t tr]]. repeat apply conj.
  - observe (ApiIndex.connect cfg w (St (ApiIndex.Trader h c) (Gateway ss t tr))).
    run w; finish_run; each_event ltac:(by cbn).
  - observe (ApiIndex.test_connection cfg w (St (ApiIndex.Trader h c) (Gateway ss t tr))).
    destruct c; run w; finish_run; each_event ltac:(by cbn).
  - observe (ApiIndex.place_market_order cfg w symbol action quantity
               (St (ApiIndex.Trader h c) (Gateway ss t tr))).
    run w; finish_run; each_event ltac:(by cbn).
Qed.

Lemma App_handshakes (cfg : config) (w : world) (symbol action : string)
    (quantity : Z) (s : st App.IBKRTrader) :
  Forall (targets cfg) (events_of (App.connect cfg w) s)
  ∧ Forall (targets cfg) (events_of (App.test_connection cfg w) s)
  ∧ Forall (targets cfg)
      (events_of (App.place_market_order cfg w symbol action quantity) s).
Proof.
  destruct s as [[c] [ss t tr]]. repeat apply conj.
  - observe (App.connect cfg w (St (App.Trader c) (Gateway ss t tr))).
    run w; finish_run; each_event ltac:(by cbn).
  - observe (App.test_connection cfg w (St (App.Trader c) (Gateway ss t tr))).
    run w; finish_run; each_event ltac:(by cbn).
  - observe (App.place_market_order cfg w symbol action quantity
               (St (App.Trader c) (Gateway ss t tr))).
    run w; finish_run; each_event ltac:(by cbn).
Qed.

(** X14.  Whatever the operation and the request, every handshake is
    made with the host, the port and the client id of the settings: the
    operations of both traders, and the order routes whatever the body
    says. *)
Theorem handshakes_use_settings (cfg : config) (w : world) :
  (∀ symbol action quantity (s : st ApiIndex.IBKRTrader),
     Forall (targets cfg) (events_of (ApiIndex.connect cfg w) s)
     ∧ Forall (targets cfg) (events_of (ApiIndex.test_connection cfg w) s)
     ∧ Forall (targets cfg)
         (events_of (ApiIndex.place_market_order cfg w symbol action quantity) s))
  ∧ (∀ symbol action quantity (s : st App.IBKRTrader),
       Forall (targets cfg) (events_of (App.connect cfg w) s)
       ∧ Forall (targets cfg) (events_of (App.test_connection cfg w) s)
       ∧ Forall (targets cfg)
           (events_of (App.place_market_order cfg w symbol action quantity) s))
  ∧ (∀ request,
       (∀ s, Forall (targets cfg) (events_of (ApiIndex.buy_stock cfg w request) s))
       ∧ (∀ s, Forall (targets cfg) (events_of (ApiIndex.sell_stock cfg w request) s))
       ∧ (∀ s, Forall (targets cfg) (events_of (App.buy_stock cfg w request) s))
       ∧ (∀ s, Forall (targets cfg) (events_of (App.sell_stock cfg w request) s))).
Proof.
  split; [intros; apply ApiIndex_handshakes|].
  split; [intros; apply App_handshakes|].
  intros request; repeat apply conj; intros s.
  - apply (order_route_events _ _ _ _ (ApiIndex_buy_route cfg w)); intros.
    apply (ApiIndex_handshakes cfg w _ "BUY").
  - apply (order_route_events _ _ _ _ (ApiIndex_sell_route cfg w)); intros.
    apply (ApiIndex_handshakes cfg w _ "SELL").
  - apply (order_route_events _ _ _ _ (App_buy_route cfg w)); intros.
    apply (App_handshakes cfg w _ "BUY").
  - apply (order_route_events _ _ _ _ (App_sell_route cfg w)); intros.
    apply (App_handshakes cfg w _ "SELL").
Qed.

(** ** The two connection policies *)

(** X15.  The long-lived variant reuses its connection: a submission
    that finds the session of the trader live (and not lost at the instant
    of its first check) performs no handshake.  The per-request variant
    opens a connection for every submission: exactly one client is
    created and exactly one handshake performed, whatever the state. *)
Theorem connection_policies (cfg : config) (w : world) (symbol action : string)
    (quantity : Z) :
  (∀ s : st ApiIndex.IBKRTrader,
     is_live (ApiIndex.ib (self s)) (gw s) = true →
     w_drop w (clock (gw s)) = false →
     count is_handshake
       (events_of (ApiIndex.place_market_order cfg w symbol action quantity) s) = 0%nat)
  ∧ (∀ s : st App.IBKRTrader,
       let evs := events_of (App.place_market_order cfg w symbol action quantity) s in
       count is_handshake evs = 1%nat
       ∧ List.filter (λ e, match e with EvIB _ => true | _ => false end) evs
         = [EvIB (length (sessions (gw s)))]).
Proof.
  split.
  - intros [[h c] [ss t tr]]; unfold is_live; cbn [self gw sessions clock ApiIndex.ib].
    intros Hlive Hdrop.
    observe (ApiIndex.place_market_order cfg w symbol action quantity
               (St (ApiIndex.Trader h c) (Gateway ss t tr))).
    settle; rewrite Hdrop, Hlive; run_exact w; finish_run; reflexivity.
  - intros [[c] [ss t tr]] evs; subst evs.
    observe (App.place_market_order cfg w symbol action quantity
               (St (App.Trader c) (Gateway ss t tr))).
    run w; finish_run; split; reflexivity.
Qed.

(** Two orders in a row on a reachable gateway: the long-lived variant
    performs no handshake for the second. *)
Lemma connection_policies_witness :
  let first := ApiIndex.place_market_order cfg0 w_up "AAPL" "BUY" 5 in
  let s1 := state_after first (ApiIndex.init g0) in
  count is_handshake (events_of first (ApiIndex.init g0)) = 1%nat
  ∧ count is_handshake
      (events_of (ApiIndex.place_market_order cfg0 w_up "MSFT" "SELL" 2) s1) = 0%nat.
Proof.
  intros first s1. split; [vm_compute; reflexivity|].
  apply (proj1 (connection_policies cfg0 w_up "MSFT" "SELL" 2) s1); vm_compute; reflexivity.
Defined.
